(** * Personal expense tracker (main.py): handlers, storage and their properties

    The program is three FastAPI handlers over one SQLite table:

      - [index]           GET  /                      lists the rows and their total
      - [add_expense]     POST /add                   inserts one row, dated today
      - [delete_expense]  GET  /delete/{expense_id}   deletes by id

    The module-level connection and cursor of main.py are shared mutable
    state; here the table is passed in and out of every handler explicitly.
    [datetime.now()] is an input of the handler that reads it.  Amounts are
    Python floats, that is IEEE 754 binary64 numbers, modelled by Rocq's
    primitive floats. *)

From Stdlib Require Import ZArith List String Ascii Bool Lia Permutation Sorted.
From Stdlib Require Import QArith Floats.
From Stdlib Require Import DecimalString DecimalZ DecimalPos.
Import ListNotations.

Local Open Scope Z_scope.

(** ** datetime.now().strftime("%Y-%m-%d") *)

Module Datetime.

(** The fields of a [datetime] that the format "%Y-%m-%d" reads. *)
Record datetime := { year : Z; month : Z; day : Z }.

(** Every [datetime] object has its year within MINYEAR..MAXYEAR and a
    month and day of the calendar. *)
Definition valid (d : datetime) : Prop :=
  1 <= year d <= 9999 /\ 1 <= month d <= 12 /\ 1 <= day d <= 31.

Definition digit (n : Z) : ascii := ascii_of_N (Z.to_N (48 + n mod 10)).

(** [n] as a decimal number of exactly [width] digits, zero-padded on the
    left, most significant digit first. *)
Fixpoint zero_padded (width : nat) (n : Z) : string :=
  match width with
  | O => EmptyString
  | S w => String (digit (n / 10 ^ Z.of_nat w))
                  (zero_padded w (n mod 10 ^ Z.of_nat w))
  end.

(** "%Y" is the year with century as a decimal number (0001 .. 9999),
    "%m" and "%d" are zero-padded to two digits.  (The C library of some
    platforms leaves a year below 1000 unpadded; the clock of a running
    server shows no such year.) *)
Definition strftime_Y_m_d (d : datetime) : string :=
  (zero_padded 4 (year d) ++ "-" ++ zero_padded 2 (month d) ++ "-"
     ++ zero_padded 2 (day d))%string.

(** Reading a decimal text back. *)
Definition is_digit (c : ascii) : bool :=
  (48 <=? Z.of_N (N_of_ascii c)) && (Z.of_N (N_of_ascii c) <=? 57).

Definition digit_value (c : ascii) : Z := Z.of_N (N_of_ascii c) - 48.

Fixpoint all_digits (s : string) : bool :=
  match s with
  | EmptyString => true
  | String c s' => is_digit c && all_digits s'
  end.

Fixpoint decimal_from (acc : Z) (s : string) : Z :=
  match s with
  | EmptyString => acc
  | String c s' => decimal_from (10 * acc + digit_value c) s'
  end.

Definition decimal (s : string) : Z := decimal_from 0 s.

(** The text [s] has the form YYYY-MM-DD and names the day of [d]: ten
    characters, digits but for the two hyphens, that read as the year, the
    month and the day of [d]. *)
Definition is_Y_m_d_of (s : string) (d : datetime) : Prop :=
  String.length s = 10%nat
  /\ all_digits (substring 0 4 s) = true /\ decimal (substring 0 4 s) = year d
  /\ substring 4 1 s = "-"%string
  /\ all_digits (substring 5 2 s) = true /\ decimal (substring 5 2 s) = month d
  /\ substring 7 1 s = "-"%string
  /\ all_digits (substring 8 2 s) = true /\ decimal (substring 8 2 s) = day d.

(** Calendar order: [later a b] when [a] is a later day than [b]. *)
Definition later (a b : datetime) : Prop :=
  year b < year a
  \/ (year a = year b /\ month b < month a)
  \/ (year a = year b /\ month a = month b /\ day b < day a).

End Datetime.

Import Datetime.

(** ** The table [expenses] and the three SQL statements *)

Module Sqlite.

(** A row of
<<
    CREATE TABLE IF NOT EXISTS expenses (
        id INTEGER PRIMARY KEY AUTOINCREMENT,
        title TEXT, amount REAL, category TEXT, date TEXT)
>>
    as [fetchall] returns it: the tuple [(e[0], e[1], e[2], e[3], e[4])].
    No column is declared NOT NULL; [amount] is the one column that can
    come back as [None] (see [bind_double]). *)
Record expense := {
  id : Z;
  title : string;
  amount : option float;
  category : string;
  date : string
}.

(** The table in rowid order (the order of a table scan), and the value
    that the sqlite_sequence table keeps for an AUTOINCREMENT key: the
    largest rowid the table has ever held. *)
Record database := {
  expenses : list expense;
  sqlite_sequence : Z
}.

(** The store after [CREATE TABLE IF NOT EXISTS] on a new file. *)
Definition empty_database : database :=
  {| expenses := []; sqlite_sequence := 0 |}.

Definition min_int64 : Z := - 2 ^ 63.
Definition max_int64 : Z := 2 ^ 63 - 1.

(** Binding a Python [int] to a parameter: SQLite integers are 64-bit
    signed, and the sqlite3 module raises OverflowError for any other
    value. *)
Definition bind_int64 (n : Z) : option Z :=
  if (min_int64 <=? n) && (n <=? max_int64) then Some n else None.

(** Binding a Python [float] ([sqlite3_bind_double]) and reading it back:
    SQLite has no NaN value, a NaN is stored as NULL and read back as
    [None]; and a zero of either sign is read back as 0.0. *)
Definition bind_double (x : float) : option float :=
  if PrimFloat.is_nan x then None
  else if PrimFloat.eqb x 0 then Some 0%float
  else Some x.

Fixpoint max_rowid (l : list expense) : Z :=
  match l with
  | [] => 0
  | e :: l' => Z.max (id e) (max_rowid l')
  end.

(** INSERT INTO expenses (title, amount, category, date) VALUES (?, ?, ?, ?).
    The rowid of an AUTOINCREMENT key is one more than the largest rowid
    the table has ever held; when that is the largest 64-bit integer the
    statement fails (SQLITE_FULL) and the result is [None].  The result
    is the new rowid (the cursor's [lastrowid]) and the new store. *)
Definition insert (t : string) (a : float) (c : string) (d : string)
    (db : database) : option (Z * database) :=
  let top := Z.max (sqlite_sequence db) (max_rowid (expenses db)) in
  if max_int64 <=? top then None
  else
    let rowid := top + 1 in
    let e := {| id := rowid; title := t; amount := bind_double a;
                category := c; date := d |} in
    Some (rowid, {| expenses := expenses db ++ [e]; sqlite_sequence := rowid |}).

(** DELETE FROM expenses WHERE id = ?. *)
Definition delete_where_id (x : Z) (db : database) : database :=
  {| expenses := filter (fun e => negb (id e =? x)) (expenses db);
     sqlite_sequence := sqlite_sequence db |}.

(** TEXT values compare bytewise (the BINARY collation), a proper prefix
    before the longer string: [String.compare]. *)
Definition date_lt (a b : expense) : bool :=
  match String.compare (date a) (date b) with Lt => true | _ => false end.

(** ORDER BY date DESC.  Rows reach the sorter in scan order and rows
    with equal keys leave it in the order they arrived: [place e l] puts
    [e], which arrived before every row of [l], in front of the first row
    whose date is not greater than its own. *)
Fixpoint place (e : expense) (l : list expense) : list expense :=
  match l with
  | [] => [e]
  | e' :: l' => if date_lt e e' then e' :: place e l' else e :: e' :: l'
  end.

Fixpoint order_by_date_desc (l : list expense) : list expense :=
  match l with
  | [] => []
  | e :: l' => place e (order_by_date_desc l')
  end.

(** SELECT * FROM expenses ORDER BY date DESC, then [fetchall]. *)
Definition select_order_by_date_desc (db : database) : list expense :=
  order_by_date_desc (expenses db).

End Sqlite.

Import Sqlite.

(** ** Responses *)

Inductive exception := TypeError | OverflowError | OperationalError.

Inductive response :=
| TemplateResponse (expenses : list expense) (total : float)
    (** index.html rendered with the context [{expenses, total}] *)
| RedirectResponse (url : string) (status_code : Z)
| RequestValidationError
    (** raised by FastAPI while it binds the parameters; the handler does not run *)
| InternalServerError (e : exception)
    (** an exception left the handler *).

Definition status (r : response) : Z :=
  match r with
  | TemplateResponse _ _ => 200
  | RedirectResponse _ code => code
  | RequestValidationError => 422
  | InternalServerError _ => 500
  end.

Definition client_error (r : response) : Prop := 400 <= status r < 500.

(** ** The handlers *)

(** The builtin [sum(iterable)], with its start value 0: the items are added
    from left to right with [+].  Adding [None] raises TypeError, here the
    result [None].  The start value is the integer 0, which [+] turns into
    the float 0.0 at the first item; on no item the result is that 0.
    (From version 3.12 on CPython carries a correction term through a run
    of floats: on one or two items the result is the one given here, on
    more it can differ.) *)
Fixpoint sum_from (start : float) (items : list (option float)) : option float :=
  match items with
  | [] => Some start
  | Some x :: rest => sum_from (start + x)%float rest
  | None :: _ => None
  end.

Definition py_sum (items : list (option float)) : option float :=
  sum_from 0%float items.

(** [index]: the rows of one SELECT are both summed and handed to the
    template. *)
Definition index (db : database) : response * database :=
  let expenses := select_order_by_date_desc db in
  match py_sum (map amount expenses) with
  | Some total => (TemplateResponse expenses total, db)
  | None => (InternalServerError TypeError, db)
  end.

(** [add_expense]; [now] is the value of [datetime.now()]. *)
Definition add_expense (title : string) (amount : float) (category : string)
    (now : datetime) (db : database) : response * database :=
  match insert title amount category (strftime_Y_m_d now) db with
  | Some (_, db') => (RedirectResponse "/" 303, db')
  | None => (InternalServerError OperationalError, db)
  end.

(** [delete_expense]. *)
Definition delete_expense (expense_id : Z) (db : database) : response * database :=
  match bind_int64 expense_id with
  | Some x => (RedirectResponse "/" 303, delete_where_id x db)
  | None => (InternalServerError OverflowError, db)
  end.

(** ** Requests, and how FastAPI binds them to the handlers' parameters *)

(** The body of a form post: the fields in the order they were sent. *)
Definition form := list (string * string).

(** [FormData.get]: the value of the last field of that name. *)
Fixpoint form_get (name : string) (body : form) : option string :=
  match body with
  | [] => None
  | (k, v) :: rest =>
      match form_get name rest with
      | Some v' => Some v'
      | None => if String.eqb k name then Some v else None
      end
  end.

Inductive request :=
| GET_root
| POST_add (body : form)
| GET_delete (expense_id : string)
    (** the path segment matched by [{expense_id}] *).

(** What FastAPI brings and main.py does not fix: the coercions of the
    declared parameter types, [amount: float] and [expense_id: int], from
    the text of a form field or of a path segment ([None] when the text is
    refused); and whether a form field that was sent empty is handed on as
    the empty text or is read as if it had not been sent.  FastAPI releases
    differ on the latter, and main.py names no release. *)
Class Coercion := {
  float_of_str : string -> option float;
  int_of_str : string -> option Z;
  binds_empty_form_value : bool
}.

Section Routing.

Context {coercion : Coercion}.

(** The value that the validation of a [Form(...)] parameter is given. *)
Definition form_value (name : string) (body : form) : option string :=
  match form_get name body with
  | Some EmptyString => if binds_empty_form_value then Some EmptyString else None
  | v => v
  end.

(** The parameters of [add_expense] as [title: str = Form(...)],
    [amount: float = Form(...)], [category: str = Form(...)] declare
    them: each one is required. *)
Definition bind_add_expense (body : form) : option (string * float * string) :=
  match form_value "title" body, form_value "amount" body, form_value "category" body with
  | Some t, Some a, Some c =>
      match float_of_str a with
      | Some x => Some (t, x, c)
      | None => None
      end
  | _, _, _ => None
  end.

(** One request, answered at the time [now]. *)
Definition handle (now : datetime) (req : request) (db : database)
    : response * database :=
  match req with
  | GET_root => index db
  | POST_add body =>
      match bind_add_expense body with
      | Some (t, x, c) => add_expense t x c now db
      | None => (RequestValidationError, db)
      end
  | GET_delete segment =>
      match int_of_str segment with
      | Some n => delete_expense n db
      | None => (RequestValidationError, db)
      end
  end.

(** What makes a create request invalid: a required field was not sent,
    or the text of [amount] is refused by the float coercion. *)
Definition invalid_create (body : form) : Prop :=
  form_get "title" body = None
  \/ form_get "amount" body = None
  \/ form_get "category" body = None
  \/ exists s, form_get "amount" body = Some s /\ float_of_str s = None.

(** The store after a sequence of requests. *)
Fixpoint run (trace : list (datetime * request)) (db : database) : database :=
  match trace with
  | [] => db
  | (now, req) :: rest => run rest (snd (handle now req db))
  end.

(** The ids that are in the table after a request and were not in it
    before: the ids the request assigned. *)
Definition fresh_ids (db db' : database) : list Z :=
  filter (fun i => negb (existsb (Z.eqb i) (map id (expenses db))))
         (map id (expenses db')).

(** The ids assigned along a sequence of requests, in the order of their
    assignment. *)
Fixpoint ids_assigned (trace : list (datetime * request)) (db : database) : list Z :=
  match trace with
  | [] => []
  | (now, req) :: rest =>
      let db' := snd (handle now req db) in
      fresh_ids db db' ++ ids_assigned rest db'
  end.

End Routing.

(** ** Reading a response *)

(** The total on a rendered page. *)
Definition total_of (r : response) : option float :=
  match r with TemplateResponse _ total => Some total | _ => None end.

(** ** Effects on the store *)

(** The three ways a request can leave the store. *)
Inductive effect (now : datetime) (db db' : database) : Prop :=
| Unchanged : db' = db -> effect now db db'
| Deleted (x : Z) : db' = delete_where_id x db -> effect now db db'
| Inserted (t : string) (a : float) (c : string) :
    sqlite_sequence db < max_int64 ->
    db' = {| expenses := expenses db ++
               [{| id := sqlite_sequence db + 1; title := t; amount := bind_double a;
                   category := c; date := strftime_Y_m_d now |}];
             sqlite_sequence := sqlite_sequence db + 1 |} ->
    effect now db db'.

(** ** Invariant of the store *)

(** What AUTOINCREMENT maintains: the rows are in increasing rowid order,
    every rowid is positive and at most the recorded sequence value, which is
    a 64-bit integer. *)
Definition wf (db : database) : Prop :=
  StronglySorted Z.lt (map id (expenses db))
  /\ Forall (fun e => 1 <= id e <= sqlite_sequence db) (expenses db)
  /\ 0 <= sqlite_sequence db <= max_int64.

(** Descending by date: no row is followed by one of a greater date. *)
Definition date_descending (l : list expense) : Prop :=
  StronglySorted (fun a b => date_lt a b = false) l.

Definition has_date (d : string) (e : expense) : bool := String.eqb (date e) d.

(** ** Reading a total as an exact number *)

(** The rational that a finite binary64 value stands for. *)
Definition exact_value (x : float) : option Q :=
  match Prim2SF x with
  | S754_zero _ => Some 0%Q
  | S754_finite s m e =>
      let n := if s then Z.neg m else Z.pos m in
      Some (if 0 <=? e then inject_Z (n * 2 ^ e) else (n # Z.to_pos (2 ^ (- e))))%Q
  | _ => None
  end.

(** The total went down from [before] to [after] by exactly [amount], in
    exact arithmetic. *)
Definition decreased_by_exactly (before after amount : float) : Prop :=
  match exact_value before, exact_value after, exact_value amount with
  | Some b, Some a, Some d => (b - a == d)%Q
  | _, _, _ => False
  end.

(** ** Sample data *)

Definition today : datetime := {| year := 2026; month := 11; day := 3 |}.

(** A coercion that accepts the decimal texts of the samples below and
    refuses all other text. *)
Definition sample_coercion : Coercion := {|
  float_of_str s :=
    if String.eqb s "4.50" then Some 4.5%float
    else if String.eqb s "2.00" then Some 2%float
    else None;
  int_of_str s :=
    if String.eqb s "1" then Some 1
    else if String.eqb s "2" then Some 2
    else if String.eqb s "9999" then Some 9999
    else None;
  binds_empty_form_value := true
|}.

Definition coffee : form :=
  [("title", "Coffee"); ("amount", "4.50"); ("category", "Food")]%string.

Definition bus : form :=
  [("title", "Bus"); ("amount", "2.00"); ("category", "Transport")]%string.


Definition tea_abc : form :=
  [("title", "Tea"); ("amount", "abc"); ("category", "Food")]%string.

(** The store after scenario 2 of the specification: Bus, then Coffee. *)
Definition bus_and_coffee : database :=
  snd (add_expense "Coffee" 4.5%float "Food" today
         (snd (add_expense "Bus" 2%float "Transport" today empty_database))).

Definition bus_row : expense :=
  {| id := 1; title := "Bus"; amount := Some 2%float; category := "Transport";
     date := "2026-11-03" |}.

Definition yesterday : datetime := {| year := 2026; month := 11; day := 2 |}.

Definition taxi_row : expense :=
  {| id := 7; title := "Taxi"; amount := Some 4.5%float; category := "Transport";
     date := "2026-11-02" |}.

(** Two rows whose amounts are far apart in magnitude. *)
Definition large_and_small : database :=
  snd (add_expense "Pocket money" 1%float "Other" today
         (snd (add_expense "Estate" 1e16%float "Other" today empty_database))).

(** ** More on creating *)

(** The row that [add_expense] stores. *)
Definition created_row (title : string) (amount : float) (category : string)
    (now : datetime) (db : database) : expense :=
  {| id := sqlite_sequence db + 1; title := title; amount := bind_double amount;
     category := category; date := strftime_Y_m_d now |}.

(** The request is a create that binds, and its amount is a NaN. *)
Definition creates_nan {coercion : Coercion} (req : request) : bool :=
  match req with
  | POST_add body =>
      match bind_add_expense body with
      | Some (_, x, _) => PrimFloat.is_nan x
      | None => false
      end
  | _ => false
  end.

(** A coercion that, like [float], reads the text nan as a NaN. *)
Definition nan_reading_coercion : Coercion := {|
  float_of_str s :=
    if String.eqb s "nan" then Some nan else @float_of_str sample_coercion s;
  int_of_str := @int_of_str sample_coercion;
  binds_empty_form_value := true
|}.

(** ** Start-up: the folders templates and static *)

(** What a path of the working directory names. *)
Inductive node :=
| Directory
| File (text : string).

(** The working directory, by path; [None] where nothing exists.  Links
    and permissions are left out. *)
Definition filesystem := string -> option node.

Definition write (path : string) (n : node) (fs : filesystem) : filesystem :=
  fun p => if String.eqb p path then Some n else fs p.

(** [Path(path).mkdir(parents=True, exist_ok=True)] for a path of one
    component: a directory that is there is left alone, a file of that name
    raises FileExistsError, here [None]. *)
Definition mkdir_exist_ok (path : string) (fs : filesystem) : option filesystem :=
  match fs path with
  | Some Directory => Some fs
  | Some (File _) => None
  | None => Some (write path Directory fs)
  end.

Section Startup.

(** The text of the module constant [TEMPLATE_HTML]. *)
Variable TEMPLATE_HTML : string.

(** Lines 88 to 98 of main.py: make templates, write templates/index.html
    unless the path exists, make static (which [StaticFiles] then finds). *)
Definition ensure_folders (fs : filesystem) : option filesystem :=
  match mkdir_exist_ok "templates" fs with
  | None => None
  | Some fs1 =>
      let fs2 :=
        match fs1 "templates/index.html"%string with
        | Some _ => fs1
        | None => write "templates/index.html" (File TEMPLATE_HTML) fs1
        end in
      mkdir_exist_ok "static" fs2
  end.

End Startup.

(** A working directory with nothing in it, and one with a template that
    somebody has edited. *)
Definition empty_directory : filesystem := fun _ => None.


(** The row and the store of scenario 1. *)
Definition coffee_row : expense :=
  {| id := 1; title := "Coffee"; amount := Some 4.5%float; category := "Food";
     date := "2026-11-03" |}.

Definition only_coffee : database :=
  snd (add_expense "Coffee" 4.5%float "Food" today empty_database).

(** ** Rows and their days *)

(** The date of the row is the text of a day. *)
Definition dated (e : expense) : Prop :=
  exists d, valid d /\ date e = strftime_Y_m_d d.

(** Whatever days the dates of [a] and [b] are the texts of, that of [b]
    is not the later one. *)
Definition not_older (a b : expense) : Prop :=
  forall da db, valid da -> valid db ->
    date a = strftime_Y_m_d da -> date b = strftime_Y_m_d db -> ~ later db da.

(** ** The delete links of the page, and the routes *)

(** [str(n)] of a Python [int]. *)
Definition str_of_int (n : Z) : string := NilZero.string_of_int (Z.to_int n).

(** The link that the template puts beside a row:
    [href="/delete/{{ e[0] }}"]. *)
Definition delete_href (e : expense) : string :=
  ("/delete/" ++ str_of_int (id e))%string.

Fixpoint strip_prefix (prefix s : string) : option string :=
  match prefix, s with
  | EmptyString, _ => Some s
  | String a prefix', String b s' =>
      if Ascii.eqb a b then strip_prefix prefix' s' else None
  | String _ _, EmptyString => None
  end.

Fixpoint has_slash (s : string) : bool :=
  match s with
  | EmptyString => false
  | String ch s' => Ascii.eqb ch "/" || has_slash s'
  end.

(** The GET routes [@app.get("/")] and [@app.get("/delete/{expense_id}")]:
    a path parameter matches one or more characters other than the slash.
    [None] where neither handler is reached. *)
Definition route_GET (path : string) : option request :=
  if String.eqb path "/" then Some GET_root
  else
    match strip_prefix "/delete/" path with
    | Some segment =>
        if String.eqb segment "" || has_slash segment then None
        else Some (GET_delete segment)
    | None => None
    end.

(** The int coercion reads the decimal text of every id. *)
Definition reads_decimal {coercion : Coercion} : Prop :=
  forall n, 0 < n -> int_of_str (str_of_int n) = Some n.

(** A coercion that reads the decimal texts of all integers. *)
Definition decimal_coercion : Coercion := {|
  float_of_str := @float_of_str sample_coercion;
  int_of_str s := option_map Z.of_int (NilZero.int_of_string s);
  binds_empty_form_value := true
|}.

(** * Properties *)

(** ** The order of TEXT values *)

Lemma ascii_compare_refl (c : ascii) : Ascii.compare c c = Eq.
Proof. unfold Ascii.compare. apply N.compare_refl. Qed.

Lemma string_compare_refl (s : string) : String.compare s s = Eq.
Proof.
  induction s as [|c s IH]; simpl; [reflexivity|].
  now rewrite ascii_compare_refl.
Qed.

Lemma ascii_compare_lt_trans (a b c : ascii) :
  Ascii.compare a b = Lt -> Ascii.compare b c = Lt -> Ascii.compare a c = Lt.
Proof.
  unfold Ascii.compare. rewrite !N.compare_lt_iff. apply N.lt_trans.
Qed.

Lemma string_compare_lt_trans (s1 : string) :
  forall s2 s3,
    String.compare s1 s2 = Lt -> String.compare s2 s3 = Lt ->
    String.compare s1 s3 = Lt.
Proof.
  induction s1 as [|c1 s1 IH]; intros [|c2 s2] [|c3 s3]; simpl;
    try discriminate; try reflexivity.
  destruct (Ascii.compare c1 c2) eqn:H12; try discriminate;
    destruct (Ascii.compare c2 c3) eqn:H23; try discriminate; intros Ha Hb.
  - apply Ascii.compare_eq_iff in H12, H23. subst.
    rewrite ascii_compare_refl. eauto.
  - apply Ascii.compare_eq_iff in H12. subst. now rewrite H23.
  - apply Ascii.compare_eq_iff in H23. subst. now rewrite H12.
  - now rewrite (ascii_compare_lt_trans _ _ _ H12 H23).
Qed.

(** [date_lt] is the strict part of a total preorder on rows. *)
Lemma date_lt_irrefl (e : expense) : date_lt e e = false.
Proof. unfold date_lt. now rewrite string_compare_refl. Qed.

Lemma date_lt_trans (a b c : expense) :
  date_lt a b = true -> date_lt b c = true -> date_lt a c = true.
Proof.
  unfold date_lt.
  destruct (String.compare (date a) (date b)) eqn:Hab; try discriminate.
  destruct (String.compare (date b) (date c)) eqn:Hbc; try discriminate.
  now rewrite (string_compare_lt_trans _ _ _ Hab Hbc).
Qed.

Lemma date_lt_asym (a b : expense) : date_lt a b = true -> date_lt b a = false.
Proof.
  unfold date_lt. rewrite (String.compare_antisym (date a) (date b)).
  now destruct (String.compare (date b) (date a)).
Qed.

(** Not below is transitive: [c] not above [b] and [b] not above [a] leave
    [c] not above [a]. *)
Lemma date_ge_trans (a b c : expense) :
  date_lt a b = false -> date_lt b c = false -> date_lt a c = false.
Proof.
  unfold date_lt. intros Hab Hbc.
  destruct (String.compare (date a) (date c)) eqn:Hac; try reflexivity.
  destruct (String.compare (date a) (date b)) eqn:Hab'; try discriminate.
  - apply String.compare_eq_iff in Hab'. rewrite <- Hab', Hac in Hbc. discriminate.
  - assert (Hba : String.compare (date b) (date a) = Lt).
    { rewrite String.compare_antisym, Hab'. reflexivity. }
    rewrite (string_compare_lt_trans _ _ _ Hba Hac) in Hbc. discriminate.
Qed.

Lemma date_lt_same_date (a b : expense) : date a = date b -> date_lt a b = false.
Proof. unfold date_lt. intros ->. now rewrite string_compare_refl. Qed.

(** ** ORDER BY date DESC is a stable descending sort *)

Lemma place_Permutation (e : expense) (l : list expense) :
  Permutation (e :: l) (place e l).
Proof.
  induction l as [|e' l IH]; simpl; [reflexivity|].
  destruct (date_lt e e'); [|reflexivity].
  rewrite perm_swap. now apply perm_skip.
Qed.

Lemma order_by_date_desc_Permutation (l : list expense) :
  Permutation l (order_by_date_desc l).
Proof.
  induction l as [|e l IH]; simpl; [reflexivity|].
  rewrite <- place_Permutation. now apply perm_skip.
Qed.

Lemma place_In (e x : expense) (l : list expense) :
  In x (place e l) <-> x = e \/ In x l.
Proof.
  split; intro H.
  - apply (Permutation_in _ (Permutation_sym (place_Permutation e l))) in H.
    destruct H; auto.
  - apply (Permutation_in _ (place_Permutation e l)). destruct H; [left|right]; auto.
Qed.

Lemma place_descending (e : expense) (l : list expense) :
  date_descending l -> date_descending (place e l).
Proof.
  unfold date_descending.
  induction l as [|e' l IH]; simpl; intro Hs.
  - constructor; constructor.
  - apply StronglySorted_inv in Hs. destruct Hs as [Hl He'].
    destruct (date_lt e e') eqn:Hlt.
    + constructor; [auto|].
      rewrite Forall_forall in *. intros x Hx. apply place_In in Hx.
      destruct Hx as [->|Hx]; [now apply date_lt_asym | auto].
    + constructor; [constructor; auto|].
      constructor; [exact Hlt|].
      rewrite Forall_forall in *. intros x Hx.
      apply (date_ge_trans e e' x); auto.
Qed.

Lemma order_by_date_desc_descending (l : list expense) :
  date_descending (order_by_date_desc l).
Proof.
  induction l as [|e l IH]; simpl; [constructor|].
  now apply place_descending.
Qed.

(** A row that no row of [l] exceeds goes to the front. *)
Lemma place_front (e : expense) (l : list expense) :
  Forall (fun x => date_lt e x = false) l -> place e l = e :: l.
Proof.
  destruct l as [|e' l]; simpl; [reflexivity|].
  intro H. apply Forall_inv in H. now rewrite H.
Qed.

(** Dropping rows before or after the sort gives the same listing: the
    rows that stay keep their relative order. *)
Lemma filter_place (p : expense -> bool) (e : expense) (l : list expense) :
  date_descending l ->
  filter p (place e l) = if p e then place e (filter p l) else filter p l.
Proof.
  unfold date_descending.
  induction l as [|e' l IH]; intro Hs.
  - simpl. now destruct (p e).
  - apply StronglySorted_inv in Hs. destruct Hs as [Hl He'].
    simpl. destruct (date_lt e e') eqn:Hlt.
    + simpl. rewrite (IH Hl).
      destruct (p e'), (p e); simpl; try reflexivity.
      now rewrite Hlt.
    + simpl. destruct (p e) eqn:Hpe; [|reflexivity].
      symmetry. apply (place_front e (if p e' then e' :: filter p l else filter p l)).
      assert (Hall : Forall (fun x => date_lt e x = false) (e' :: l)).
      { constructor; [exact Hlt|].
        rewrite Forall_forall in *. intros x Hx.
        apply (date_ge_trans e e' x); auto. }
      change (Forall (fun x => date_lt e x = false) (filter p (e' :: l))).
      rewrite Forall_forall in *. intros x Hx.
      apply filter_In in Hx. now apply Hall.
Qed.

Lemma filter_order_by_date_desc (p : expense -> bool) (l : list expense) :
  filter p (order_by_date_desc l) = order_by_date_desc (filter p l).
Proof.
  induction l as [|e l IH]; simpl; [reflexivity|].
  rewrite filter_place by apply order_by_date_desc_descending.
  rewrite IH. now destruct (p e).
Qed.

(** Rows of one date are left as they are. *)
Lemma order_by_date_desc_same_date (d : string) (l : list expense) :
  Forall (fun e => has_date d e = true) l -> order_by_date_desc l = l.
Proof.
  induction l as [|e l IH]; simpl; intro H; [reflexivity|].
  pose proof (Forall_inv H) as He. apply Forall_inv_tail in H.
  rewrite (IH H). apply place_front.
  rewrite Forall_forall in *. intros x Hx.
  apply date_lt_same_date.
  unfold has_date in *. apply String.eqb_eq in He.
  specialize (H x Hx). apply String.eqb_eq in H. congruence.
Qed.

Lemma order_by_date_desc_stable (d : string) (l : list expense) :
  filter (has_date d) (order_by_date_desc l) = filter (has_date d) l.
Proof.
  rewrite filter_order_by_date_desc.
  apply (order_by_date_desc_same_date d).
  rewrite Forall_forall. intros x Hx. now apply filter_In in Hx.
Qed.

(** ** The statements keep the invariant *)

Lemma max_rowid_le (s : Z) (l : list expense) :
  0 <= s -> Forall (fun e => 1 <= id e <= s) l -> max_rowid l <= s.
Proof.
  intro Hs. induction 1 as [|e l He _ IH]; simpl; lia.
Qed.

Lemma wf_empty_database : wf empty_database.
Proof.
  unfold wf, empty_database, max_int64; simpl.
  repeat split; try constructor; lia.
Qed.

Lemma StronglySorted_snoc (l : list Z) (x : Z) :
  StronglySorted Z.lt l -> Forall (fun y => y < x) l ->
  StronglySorted Z.lt (l ++ [x]).
Proof.
  induction l as [|y l IH]; simpl; intros Hs Hl.
  - constructor; constructor.
  - apply StronglySorted_inv in Hs. destruct Hs as [Hs Hy].
    pose proof (Forall_inv Hl) as Hyx. apply Forall_inv_tail in Hl.
    constructor; [auto|].
    apply Forall_app. split; [exact Hy|]. constructor; [exact Hyx|constructor].
Qed.

Lemma StronglySorted_map_filter (p : expense -> bool) (l : list expense) :
  StronglySorted Z.lt (map id l) -> StronglySorted Z.lt (map id (filter p l)).
Proof.
  induction l as [|e l IH]; simpl; intro Hs; [constructor|].
  apply StronglySorted_inv in Hs. destruct Hs as [Hs He].
  destruct (p e); simpl; [|auto].
  constructor; [auto|].
  rewrite Forall_forall in *. intros x Hx.
  apply in_map_iff in Hx. destruct Hx as [e' [<- He']].
  apply filter_In in He'. apply He. apply in_map. tauto.
Qed.

(** On a well-formed store INSERT fails only when the sequence is
    exhausted, and otherwise appends one row whose rowid is the sequence
    value plus one. *)
Lemma insert_wf (t : string) (a : float) (c d : string) (db : database) :
  wf db ->
  (sqlite_sequence db = max_int64 /\ insert t a c d db = None)
  \/ (sqlite_sequence db < max_int64 /\
      let e := {| id := sqlite_sequence db + 1; title := t; amount := bind_double a;
                  category := c; date := d |} in
      let db' := {| expenses := expenses db ++ [e];
                    sqlite_sequence := sqlite_sequence db + 1 |} in
      insert t a c d db = Some (sqlite_sequence db + 1, db') /\ wf db').
Proof.
  intros (Hsorted & Hids & Hseq).
  pose proof (max_rowid_le _ _ (proj1 Hseq) Hids) as Hmax.
  unfold insert. rewrite (Z.max_l _ _ Hmax).
  destruct (Z.leb_spec max_int64 (sqlite_sequence db)) as [Hfull|Hroom].
  - left. split; [lia|reflexivity].
  - right. split; [exact Hroom|]. split; [reflexivity|].
    unfold wf; simpl. repeat split; try lia.
    + rewrite map_app. simpl. apply StronglySorted_snoc; [exact Hsorted|].
      rewrite Forall_map. eapply Forall_impl; [|exact Hids]. simpl; intros; lia.
    + apply Forall_app. split.
      * eapply Forall_impl; [|exact Hids]. simpl; intros; lia.
      * constructor; [simpl; lia|constructor].
Qed.

Lemma delete_where_id_wf (x : Z) (db : database) :
  wf db -> wf (delete_where_id x db).
Proof.
  intros (Hsorted & Hids & Hseq). unfold wf, delete_where_id; simpl.
  repeat split; try lia.
  - now apply StronglySorted_map_filter.
  - rewrite Forall_forall in *. intros e He. apply filter_In in He. now apply Hids.
Qed.

(** Deleting an id that no row has changes nothing. *)
Lemma delete_where_id_absent (x : Z) (db : database) :
  Forall (fun e => id e <> x) (expenses db) -> delete_where_id x db = db.
Proof.
  destruct db as [l s]. unfold delete_where_id; simpl. intro H. f_equal.
  induction l as [|e l IH]; simpl; [reflexivity|].
  pose proof (Forall_inv H) as He. apply Forall_inv_tail in H.
  apply Z.eqb_neq in He. rewrite He. simpl. now rewrite (IH H).
Qed.

Lemma bind_int64_Some (n : Z) :
  min_int64 <= n <= max_int64 -> bind_int64 n = Some n.
Proof.
  intro H. unfold bind_int64.
  destruct (Z.leb_spec min_int64 n), (Z.leb_spec n max_int64); simpl; try lia.
  reflexivity.
Qed.

Lemma bind_int64_None (n : Z) :
  n < min_int64 \/ max_int64 < n -> bind_int64 n = None.
Proof.
  intro H. unfold bind_int64.
  destruct (Z.leb_spec min_int64 n), (Z.leb_spec n max_int64); simpl; try lia;
    reflexivity.
Qed.

(** The rowids of a well-formed store are 64-bit integers. *)
Lemma wf_id_int64 (db : database) (e : expense) :
  wf db -> In e (expenses db) -> min_int64 <= id e <= max_int64.
Proof.
  intros (_ & Hids & Hseq) He. rewrite Forall_forall in Hids.
  specialize (Hids e He). unfold min_int64. lia.
Qed.

(** ** Dates as text *)

Lemma N_of_ascii_digit (n : Z) :
  Z.of_N (N_of_ascii (digit n)) = 48 + n mod 10.
Proof.
  unfold digit.
  pose proof (Z.mod_pos_bound n 10 ltac:(lia)) as Hn.
  rewrite N_ascii_embedding.
  - rewrite Z2N.id; lia.
  - change 256%N with (Z.to_N 256). apply Z2N.inj_lt; lia.
Qed.

Lemma digit_compare (m n : Z) :
  Ascii.compare (digit m) (digit n) = (m mod 10 ?= n mod 10).
Proof.
  unfold Ascii.compare. rewrite <- N2Z.inj_compare, !N_of_ascii_digit.
  apply Z.add_compare_mono_l.
Qed.

Lemma is_digit_digit (n : Z) : is_digit (digit n) = true.
Proof.
  unfold is_digit. rewrite N_of_ascii_digit.
  pose proof (Z.mod_pos_bound n 10 ltac:(lia)).
  apply andb_true_iff; split; apply Z.leb_le; lia.
Qed.

Lemma digit_value_digit (n : Z) : digit_value (digit n) = n mod 10.
Proof. unfold digit_value. rewrite N_of_ascii_digit. lia. Qed.

(** Zero-padded numbers of one width compare as texts the way they compare
    as numbers, whatever follows them. *)
Lemma zero_padded_compare (w : nat) :
  forall a b s t,
    0 <= a < 10 ^ Z.of_nat w -> 0 <= b < 10 ^ Z.of_nat w ->
    String.compare (zero_padded w a ++ s) (zero_padded w b ++ t)
    = match a ?= b with Eq => String.compare s t | c => c end.
Proof.
  induction w as [|w IH]; intros a b s t Ha Hb.
  - simpl in *. assert (a = 0) by lia. assert (b = 0) by lia. subst. reflexivity.
  - rewrite Nat2Z.inj_succ, Z.pow_succ_r in Ha, Hb by lia.
    set (p := 10 ^ Z.of_nat w) in *.
    assert (Hp : 0 < p) by (subst p; apply Z.pow_pos_nonneg; lia).
    cbn [zero_padded String.append String.compare]. fold p.
    rewrite digit_compare.
    pose proof (Z.div_mod a p ltac:(lia)) as Hqa.
    pose proof (Z.div_mod b p ltac:(lia)) as Hqb.
    pose proof (Z.mod_pos_bound a p Hp) as Hra.
    pose proof (Z.mod_pos_bound b p Hp) as Hrb.
    assert (Hda : 0 <= a / p < 10) by (split; [apply Z.div_pos; lia | apply Z.div_lt_upper_bound; lia]).
    assert (Hdb : 0 <= b / p < 10) by (split; [apply Z.div_pos; lia | apply Z.div_lt_upper_bound; lia]).
    rewrite (Z.mod_small (a / p)), (Z.mod_small (b / p)) by lia.
    rewrite (IH _ _ s t Hra Hrb).
    destruct (Z.compare_spec (a / p) (b / p)) as [Hq|Hq|Hq].
    + rewrite Hq in Hqa.
      destruct (Z.compare_spec (a mod p) (b mod p)) as [Hr|Hr|Hr];
        destruct (Z.compare_spec a b); try reflexivity; lia.
    + destruct (Z.compare_spec a b); try reflexivity; nia.
    + destruct (Z.compare_spec a b); try reflexivity; nia.
Qed.

Lemma string_compare_same_head (c : ascii) (s t : string) :
  String.compare (String c s) (String c t) = String.compare s t.
Proof. simpl. now rewrite ascii_compare_refl. Qed.

Lemma append_empty_r (s : string) : (s ++ "")%string = s.
Proof. induction s as [|c s IH]; simpl; [reflexivity|now rewrite IH]. Qed.

(** The text of a date compares as the date. *)
Lemma strftime_Y_m_d_compare (a b : datetime) :
  valid a -> valid b ->
  String.compare (strftime_Y_m_d a) (strftime_Y_m_d b)
  = match year a ?= year b with
    | Eq => match month a ?= month b with
            | Eq => day a ?= day b
            | c => c
            end
    | c => c
    end.
Proof.
  intros (Hya & Hma & Hda) (Hyb & Hmb & Hdb). unfold strftime_Y_m_d.
  rewrite zero_padded_compare by (simpl; lia).
  destruct (year a ?= year b); try reflexivity.
  change ("-" ++ ?s)%string with (String "-" s).
  cbn [String.append]. rewrite string_compare_same_head.
  rewrite zero_padded_compare by (simpl; lia).
  destruct (month a ?= month b); try reflexivity.
  cbn [String.append]. rewrite string_compare_same_head.
  rewrite <- (append_empty_r (zero_padded 2 (day a))).
  rewrite <- (append_empty_r (zero_padded 2 (day b))).
  rewrite zero_padded_compare by (simpl; lia).
  now destruct (day a ?= day b).
Qed.

(** The text that [strftime] gives has the form YYYY-MM-DD and reads as the
    date it was made from. *)
Lemma strftime_Y_m_d_form (d : datetime) :
  valid d -> is_Y_m_d_of (strftime_Y_m_d d) d.
Proof.
  intros (Hy & Hm & Hd).
  unfold is_Y_m_d_of, strftime_Y_m_d.
  cbn [zero_padded String.append String.length substring Z.of_nat Pos.of_succ_nat
       Pos.succ all_digits decimal decimal_from].
  rewrite !is_digit_digit, !digit_value_digit.
  change (10 ^ 3) with 1000. change (10 ^ 2) with 100.
  change (10 ^ 1) with 10. change (10 ^ 0) with 1.
  repeat split; try reflexivity.
  - Z.div_mod_to_equations. lia.
  - Z.div_mod_to_equations. lia.
  - Z.div_mod_to_equations. lia.
Qed.

(** ** One request *)

Lemma index_store (db : database) : snd (index db) = db.
Proof. unfold index. now destruct (py_sum _). Qed.

Lemma index_response (db : database) :
  fst (index db) =
    match py_sum (map amount (select_order_by_date_desc db)) with
    | Some total => TemplateResponse (select_order_by_date_desc db) total
    | None => InternalServerError TypeError
    end.
Proof. unfold index. now destruct (py_sum _). Qed.

(** [sum] succeeds on amounts that are all numbers, and on no others. *)
Lemma sum_from_Some (items : list (option float)) :
  Forall (fun a => a <> None) items ->
  forall start, exists total, sum_from start items = Some total.
Proof.
  induction 1 as [|a items Ha _ IH]; intro start; simpl.
  - now exists start.
  - destruct a as [x|]; [apply IH|congruence].
Qed.

Lemma sum_from_None (items : list (option float)) :
  In None items -> forall start, sum_from start items = None.
Proof.
  induction items as [|a items IH]; simpl; intros Hin start; [contradiction|].
  destruct a as [x|]; [|reflexivity].
  destruct Hin as [Hin|Hin]; [discriminate|now apply IH].
Qed.

(** What a create does to a well-formed store with room for one more
    rowid. *)
Lemma add_expense_inserts (t : string) (x : float) (c : string)
    (now : datetime) (db : database) :
  wf db -> sqlite_sequence db < max_int64 ->
  add_expense t x c now db =
    (RedirectResponse "/" 303,
     {| expenses := expenses db ++
          [{| id := sqlite_sequence db + 1; title := t; amount := bind_double x;
              category := c; date := strftime_Y_m_d now |}];
        sqlite_sequence := sqlite_sequence db + 1 |}).
Proof.
  intros Hwf Hroom. unfold add_expense.
  destruct (insert_wf t x c (strftime_Y_m_d now) db Hwf) as [[Hfull _]|(_ & Hins & _)].
  - lia.
  - cbv zeta in Hins. now rewrite Hins.
Qed.

Lemma add_expense_full (t : string) (x : float) (c : string)
    (now : datetime) (db : database) :
  wf db -> sqlite_sequence db = max_int64 ->
  add_expense t x c now db = (InternalServerError OperationalError, db).
Proof.
  intros Hwf Hfull. unfold add_expense.
  destruct (insert_wf t x c (strftime_Y_m_d now) db Hwf) as [[_ Hins]|(Hroom & _)].
  - now rewrite Hins.
  - lia.
Qed.

Section Handlers.

Context {coercion : Coercion}.

Lemma handle_effect (now : datetime) (req : request) (db : database) :
  wf db -> effect now db (snd (handle now req db)).
Proof.
  intro Hwf. destruct req as [|body|segment]; simpl.
  - apply Unchanged. apply index_store.
  - destruct (bind_add_expense body) as [[[t x] c]|].
    + destruct (Z.eq_dec (sqlite_sequence db) max_int64) as [Hfull|Hroom].
      * rewrite (add_expense_full _ _ _ _ _ Hwf Hfull). now apply Unchanged.
      * assert (Hlt : sqlite_sequence db < max_int64)
          by (destruct Hwf as (_ & _ & ?); lia).
        rewrite (add_expense_inserts _ _ _ _ _ Hwf Hlt).
        now apply (Inserted _ _ _ t x c).
    + now apply Unchanged.
  - destruct (int_of_str segment) as [n|]; [|now apply Unchanged].
    unfold delete_expense. destruct (bind_int64 n) as [x|]; simpl.
    + now apply (Deleted _ _ _ x).
    + now apply Unchanged.
Qed.

Lemma effect_wf (now : datetime) (db db' : database) :
  wf db -> effect now db db' -> wf db'.
Proof.
  intros Hwf [->| x -> | t a c Hroom ->].
  - exact Hwf.
  - now apply delete_where_id_wf.
  - destruct (insert_wf t a c (strftime_Y_m_d now) db Hwf) as [[Hfull _]|(_ & _ & Hwf')].
    + lia.
    + exact Hwf'.
Qed.

Lemma handle_wf (now : datetime) (req : request) (db : database) :
  wf db -> wf (snd (handle now req db)).
Proof. intro Hwf. eapply effect_wf; [exact Hwf|]. now apply handle_effect. Qed.

Lemma run_wf (trace : list (datetime * request)) :
  forall db, wf db -> wf (run trace db).
Proof.
  induction trace as [|[now req] trace IH]; simpl; intros db Hwf.
  - exact Hwf.
  - apply IH. now apply handle_wf.
Qed.

(** ** The listing and its total *)

(** On a store whose amounts are all numbers the page shows the rows of
    the SELECT together with the sum of their amounts, added up from 0 in
    the order of the listing. *)
Lemma index_total (db : database) :
  Forall (fun e => amount e <> None) (expenses db) ->
  exists total,
    index db = (TemplateResponse (select_order_by_date_desc db) total, db)
    /\ py_sum (map amount (select_order_by_date_desc db)) = Some total
    /\ (expenses db = [] -> total = 0%float).
Proof.
  intro Hall.
  assert (Hsel : Forall (fun a => a <> None)
                   (map amount (select_order_by_date_desc db))).
  { rewrite Forall_map, Forall_forall in *. intros e He. apply Hall.
    apply (Permutation_in _ (Permutation_sym (order_by_date_desc_Permutation _))).
    exact He. }
  destruct (sum_from_Some _ Hsel 0%float) as [total Htotal].
  exists total. unfold index, py_sum. rewrite Htotal.
  split; [reflexivity|]. split; [reflexivity|].
  intro Hnil. unfold select_order_by_date_desc in Htotal.
  rewrite Hnil in Htotal. simpl in Htotal. congruence.
Qed.

(** On a store with a row whose amount is NULL the handler fails, whatever
    the other rows are. *)
Lemma index_fails_on_null (db : database) (e : expense) :
  In e (expenses db) -> amount e = None ->
  index db = (InternalServerError TypeError, db).
Proof.
  intros He Hnull. unfold index, py_sum. rewrite sum_from_None; [reflexivity|].
  rewrite <- Hnull. apply in_map.
  apply (Permutation_in _ (order_by_date_desc_Permutation _)), He.
Qed.

(** C1.  The listing handler is meant to render, for every stored record
    set, the records of one SELECT and the sum of their amounts.  A create
    whose amount is the float NaN is accepted and stored with a NULL
    amount; on the store that results [sum] raises TypeError and no page
    and no total is rendered. *)
Theorem index_fails_after_nan_amount :
  let created := add_expense "Coffee" nan "Food" today empty_database in
  fst created = RedirectResponse "/" 303
  /\ map amount (expenses (snd created)) = [None]
  /\ index (snd created) = (InternalServerError TypeError, snd created).
Proof. vm_compute. repeat split; reflexivity. Qed.

(** C2.  The listing holds every current row, newest date first; rows of
    one date are in the order in which the table holds them, which is the
    order of their insertion and of their ids; the page that [index]
    renders shows this listing; and a listing changes nothing, so that a
    second listing with no write in between is the same. *)
Theorem listing_newest_first_insertion_order_on_ties (db : database) :
  Permutation (expenses db) (select_order_by_date_desc db)
  /\ date_descending (select_order_by_date_desc db)
  /\ (forall d, filter (has_date d) (select_order_by_date_desc db)
                = filter (has_date d) (expenses db))
  /\ (wf db ->
      forall d, StronglySorted Z.lt
                  (map id (filter (has_date d) (select_order_by_date_desc db))))
  /\ (forall l total, fst (index db) = TemplateResponse l total ->
                      l = select_order_by_date_desc db)
  /\ (forall now now',
        handle now' GET_root (snd (handle now GET_root db)) = handle now GET_root db).
Proof.
  split; [apply order_by_date_desc_Permutation|].
  split; [apply order_by_date_desc_descending|].
  split; [intro d; apply order_by_date_desc_stable|].
  split.
  { intros (Hsorted & _) d. unfold select_order_by_date_desc.
    rewrite order_by_date_desc_stable. now apply StronglySorted_map_filter. }
  split.
  - intros l total. rewrite index_response.
    destruct (py_sum _); [|discriminate]. now intros [= <- _].
  - intros now now'. simpl. now rewrite index_store.
Qed.

(** ** Validation *)

Lemma form_value_None (name : string) (body : form) :
  form_get name body = None -> form_value name body = None.
Proof. unfold form_value. now intros ->. Qed.

Lemma bind_add_expense_invalid (body : form) :
  invalid_create body -> bind_add_expense body = None.
Proof.
  unfold bind_add_expense.
  intros [H|[H|[H|(s & Hs & Hf)]]].
  - now rewrite (form_value_None _ _ H).
  - rewrite (form_value_None _ _ H). now destruct (form_value "title" body).
  - rewrite (form_value_None _ _ H).
    now destruct (form_value "title" body), (form_value "amount" body).
  - unfold form_value at 2. rewrite Hs.
    destruct (form_value "title" body); [|reflexivity].
    destruct s as [|ch s].
    + destruct binds_empty_form_value; [|reflexivity].
      destruct (form_value "category" body); [|reflexivity].
      now rewrite Hf.
    + destruct (form_value "category" body); [|reflexivity].
      now rewrite Hf.
Qed.

(** C3.  A create request that lacks a required field or whose amount is
    not the text of a number, and a delete request whose id is not the text
    of an integer, are answered with a client error (422) and leave the
    store as it was. *)
Theorem invalid_requests_change_nothing (now : datetime) (db : database) :
  (forall body, invalid_create body ->
     client_error (fst (handle now (POST_add body) db))
     /\ snd (handle now (POST_add body) db) = db)
  /\ (forall segment, int_of_str segment = None ->
        client_error (fst (handle now (GET_delete segment) db))
        /\ snd (handle now (GET_delete segment) db) = db).
Proof.
  split.
  - intros body Hbad. simpl. rewrite (bind_add_expense_invalid _ Hbad).
    unfold client_error; simpl. split; [lia|reflexivity].
  - intros segment Hbad. simpl. rewrite Hbad.
    unfold client_error; simpl. split; [lia|reflexivity].
Qed.

(** ** Deleting *)

(** C4, as the code has it.  For an id that SQLite can hold (a signed
    64-bit integer) and that no row has, [delete_expense] answers with the
    redirect and leaves the store as it was; and after any delete of such
    an id, present or not, a second delete of it answers the same and
    changes nothing. *)
Theorem delete_absent_id_changes_nothing (x : Z) (db : database) :
  min_int64 <= x <= max_int64 ->
  (Forall (fun e => id e <> x) (expenses db) ->
     delete_expense x db = (RedirectResponse "/" 303, db))
  /\ (let db1 := snd (delete_expense x db) in
      fst (delete_expense x db) = RedirectResponse "/" 303
      /\ delete_expense x db1 = (RedirectResponse "/" 303, db1)).
Proof.
  intro Hx. unfold delete_expense. rewrite (bind_int64_Some _ Hx). simpl. split.
  - intro Habsent. now rewrite (delete_where_id_absent _ _ Habsent).
  - split; [reflexivity|].
    rewrite delete_where_id_absent; [reflexivity|].
    simpl. rewrite Forall_forall. intros e He. apply filter_In in He.
    destruct He as [_ He]. apply negb_true_iff in He. now apply Z.eqb_neq.
Qed.

(** ** Identifiers *)

Lemma fresh_ids_none (db db' : database) :
  incl (expenses db') (expenses db) -> fresh_ids db db' = [].
Proof.
  unfold fresh_ids. intro Hincl.
  induction (expenses db') as [|e l IH]; simpl; [reflexivity|].
  assert (Hin : existsb (Z.eqb (id e)) (map id (expenses db)) = true).
  { apply existsb_exists. exists (id e). split; [|apply Z.eqb_refl].
    apply in_map. apply Hincl. now left. }
  rewrite Hin. simpl. apply IH. intros y Hy. apply Hincl. now right.
Qed.

Lemma fresh_ids_inserted (db : database) (e : expense) (s : Z) :
  Forall (fun e0 => id e0 < id e) (expenses db) ->
  fresh_ids db {| expenses := expenses db ++ [e]; sqlite_sequence := s |} = [id e].
Proof.
  unfold fresh_ids. simpl. intro Hlt.
  rewrite map_app, filter_app.
  change (filter _ (map id (expenses db)))
    with (fresh_ids db db). rewrite fresh_ids_none by apply incl_refl.
  simpl.
  assert (Hnew : existsb (Z.eqb (id e)) (map id (expenses db)) = false).
  { apply not_true_is_false. intro H. apply existsb_exists in H.
    destruct H as (i & Hi & Heq). apply Z.eqb_eq in Heq. subst i.
    apply in_map_iff in Hi. destruct Hi as (e0 & Hid & He0).
    rewrite Forall_forall in Hlt. specialize (Hlt e0 He0). lia. }
  now rewrite Hnew.
Qed.

(** A request assigns no id, or (a create that succeeds) the one id that
    follows the sequence value. *)
Lemma fresh_ids_effect (now : datetime) (db db' : database) :
  wf db -> effect now db db' ->
  (fresh_ids db db' = [] /\ sqlite_sequence db' = sqlite_sequence db)
  \/ (fresh_ids db db' = [sqlite_sequence db + 1]
      /\ sqlite_sequence db' = sqlite_sequence db + 1).
Proof.
  intros (_ & Hids & _) [->| x -> | t a c Hroom ->].
  - left. split; [apply fresh_ids_none, incl_refl|reflexivity].
  - left. split; [|reflexivity]. apply fresh_ids_none.
    intros e He. simpl in He. now apply filter_In in He.
  - right. split; [|reflexivity].
    rewrite fresh_ids_inserted; [reflexivity|]. simpl.
    eapply Forall_impl; [|exact Hids]. simpl. intros; lia.
Qed.

(** A create that is answered with the redirect assigns one id, the
    successor of the sequence value. *)
Lemma create_assigns_next_id (now : datetime) (body : form) (db : database) :
  wf db ->
  fst (handle now (POST_add body) db) = RedirectResponse "/" 303 ->
  fresh_ids db (snd (handle now (POST_add body) db)) = [sqlite_sequence db + 1].
Proof.
  intros Hwf. simpl.
  destruct (bind_add_expense body) as [[[t x] c]|]; [|discriminate].
  destruct (Z.eq_dec (sqlite_sequence db) max_int64) as [Hfull|Hroom].
  { rewrite (add_expense_full _ _ _ _ _ Hwf Hfull). discriminate. }
  assert (Hlt : sqlite_sequence db < max_int64)
    by (destruct Hwf as (_ & _ & ?); lia).
  rewrite (add_expense_inserts _ _ _ _ _ Hwf Hlt). intros _. simpl.
  rewrite fresh_ids_inserted; [reflexivity|]. simpl.
  destruct Hwf as (_ & Hids & _).
  eapply Forall_impl; [|exact Hids]. simpl. intros; lia.
Qed.

Lemma ids_assigned_above_sequence (trace : list (datetime * request)) :
  forall db, wf db ->
    StronglySorted Z.lt (ids_assigned trace db)
    /\ Forall (fun i => sqlite_sequence db < i) (ids_assigned trace db).
Proof.
  induction trace as [|[now req] trace IH]; simpl; intros db Hwf.
  - split; constructor.
  - pose proof (handle_effect now req db Hwf) as Heff.
    pose proof (handle_wf now req db Hwf) as Hwf'.
    set (db' := snd (handle now req db)) in *.
    destruct (IH db' Hwf') as [Hsorted Habove].
    destruct (fresh_ids_effect now db db' Hwf Heff) as [[-> Hseq]|[-> Hseq]]; simpl.
    + split; [exact Hsorted|]. now rewrite <- Hseq.
    + rewrite Hseq in Habove. split.
      * constructor; [exact Hsorted|exact Habove].
      * constructor; [lia|].
        eapply Forall_impl; [|exact Habove]. simpl. intros; lia.
Qed.

(** C5.  Along every sequence of requests from the empty store, deletes
    included, the ids that the creates assign are strictly increasing in
    the order of their assignment; so they are pairwise distinct and none
    is assigned a second time. *)
Theorem assigned_ids_strictly_increasing (trace : list (datetime * request)) :
  StronglySorted Z.lt (ids_assigned trace empty_database)
  /\ NoDup (ids_assigned trace empty_database).
Proof.
  destruct (ids_assigned_above_sequence trace _ wf_empty_database) as [Hsorted _].
  split; [exact Hsorted|].
  induction Hsorted as [|i l _ IH Hall]; constructor; [|exact IH].
  intro Hin. rewrite Forall_forall in Hall. specialize (Hall i Hin). lia.
Qed.

(** ** Rows over time *)

Lemma wf_NoDup_ids (db : database) : wf db -> NoDup (map id (expenses db)).
Proof.
  intros (Hsorted & _). induction Hsorted as [|i l _ IH Hall]; constructor; [|exact IH].
  intro Hin. rewrite Forall_forall in Hall. specialize (Hall i Hin). lia.
Qed.

(** Two rows of one id in a store are one row. *)
Lemma NoDup_ids_same (l : list expense) (r r' : expense) :
  NoDup (map id l) -> In r l -> In r' l -> id r' = id r -> r' = r.
Proof.
  induction l as [|e l IH]; simpl; intros Hnd Hr Hr' Hid; [contradiction|].
  apply NoDup_cons_iff in Hnd. destruct Hnd as [Hnotin Hnd].
  destruct Hr as [->|Hr], Hr' as [->|Hr']; auto.
  - exfalso. apply Hnotin. rewrite <- Hid. now apply in_map.
  - exfalso. apply Hnotin. rewrite Hid. now apply in_map.
Qed.

(** After one request every row is a row from before, unchanged, or has an
    id above the old sequence value. *)
Lemma effect_rows (now : datetime) (db db' : database) (e : expense) :
  effect now db db' -> In e (expenses db') ->
  In e (expenses db) \/ sqlite_sequence db < id e.
Proof.
  intros [->| x -> | t a c Hroom ->] He.
  - now left.
  - left. simpl in He. now apply filter_In in He.
  - simpl in He. apply in_app_or in He. destruct He as [He|[<-|[]]].
    + now left.
    + right. simpl. lia.
Qed.

Lemma effect_sequence (now : datetime) (db db' : database) :
  effect now db db' -> sqlite_sequence db <= sqlite_sequence db'.
Proof. intros [->| x -> | t a c Hroom ->]; simpl; lia. Qed.

Lemma run_rows (trace : list (datetime * request)) :
  forall db e, wf db -> In e (expenses (run trace db)) ->
    In e (expenses db) \/ sqlite_sequence db < id e.
Proof.
  induction trace as [|[now req] trace IH]; simpl; intros db e Hwf He.
  - now left.
  - pose proof (handle_effect now req db Hwf) as Heff.
    destruct (IH _ e (handle_wf now req db Hwf) He) as [Hin|Hnew].
    + now apply (effect_rows now db _ e Heff).
    + right. pose proof (effect_sequence _ _ _ Heff). lia.
Qed.

(** A request that is not a delete of the id of [r] keeps the row [r]. *)
Lemma handle_keeps (now : datetime) (req : request) (db : database) (r : expense) :
  (forall segment, req = GET_delete segment -> int_of_str segment <> Some (id r)) ->
  In r (expenses db) -> In r (expenses (snd (handle now req db))).
Proof.
  intros Hreq Hr. destruct req as [|body|segment]; simpl.
  - now rewrite index_store.
  - destruct (bind_add_expense body) as [[[t x] c]|]; [|exact Hr].
    unfold add_expense, insert.
    destruct (max_int64 <=? _); simpl; [exact Hr|].
    apply in_or_app. now left.
  - specialize (Hreq segment eq_refl).
    destruct (int_of_str segment) as [n|]; [|exact Hr].
    unfold delete_expense, bind_int64.
    destruct (_ && _); simpl; [|exact Hr].
    apply filter_In. split; [exact Hr|].
    apply negb_true_iff, Z.eqb_neq. congruence.
Qed.

(** ** Deleting a row that is there *)

Lemma filter_all (p : expense -> bool) (l : list expense) :
  Forall (fun e => p e = true) l -> filter p l = l.
Proof.
  induction 1 as [|e l He _ IH]; simpl; [reflexivity|]. now rewrite He, IH.
Qed.

(** In a list without a repeated id, dropping the rows of the id of [r]
    takes out the one occurrence of [r] and nothing else. *)
Lemma filter_id_split (l : list expense) (r : expense) :
  NoDup (map id l) -> In r l ->
  exists before after,
    l = before ++ r :: after
    /\ filter (fun e => negb (id e =? id r)) l = before ++ after
    /\ Forall (fun e => id e <> id r) (before ++ after).
Proof.
  intros Hnd Hin. destruct (in_split _ _ Hin) as (before & after & ->).
  exists before, after. split; [reflexivity|].
  rewrite map_app in Hnd. simpl in Hnd. apply NoDup_remove in Hnd.
  destruct Hnd as [_ Hnotin]. rewrite <- map_app in Hnotin.
  assert (Hother : Forall (fun e => id e <> id r) (before ++ after)).
  { rewrite Forall_forall. intros e He Heq. apply Hnotin.
    rewrite <- Heq. now apply in_map. }
  split; [|exact Hother].
  rewrite filter_app. simpl. rewrite Z.eqb_refl. simpl.
  rewrite <- filter_app. apply filter_all.
  eapply Forall_impl; [|exact Hother]. simpl.
  intros e He. now apply negb_true_iff, Z.eqb_neq.
Qed.

(** C6, as the code has it.  Deleting the id of a stored row [r] is
    answered with the redirect; the listing afterwards is the listing before
    with the one entry [r] taken out, all other rows in their places; the
    total shown afterwards is the sum of the amounts of the rows that are
    left, added up anew; and after any further requests no row has the id
    of [r]. *)
Theorem delete_takes_the_row_out_and_sums_the_rest (db : database) (r : expense) :
  wf db -> In r (expenses db) ->
  let db' := delete_where_id (id r) db in
  delete_expense (id r) db = (RedirectResponse "/" 303, db')
  /\ (exists before after,
        select_order_by_date_desc db = before ++ r :: after
        /\ select_order_by_date_desc db' = before ++ after
        /\ Forall (fun e => id e <> id r) (before ++ after)
        /\ total_of (fst (index db)) = py_sum (map amount (before ++ r :: after))
        /\ total_of (fst (index db')) = py_sum (map amount (before ++ after)))
  /\ (forall trace e, In e (expenses (run trace db')) -> id e <> id r).
Proof.
  intros Hwf Hr db'. split; [|split].
  - unfold delete_expense. now rewrite (bind_int64_Some _ (wf_id_int64 _ _ Hwf Hr)).
  - assert (Hnd : NoDup (map id (select_order_by_date_desc db))).
    { eapply Permutation_NoDup; [|exact (wf_NoDup_ids _ Hwf)].
      apply Permutation_map, order_by_date_desc_Permutation. }
    assert (Hin : In r (select_order_by_date_desc db)).
    { apply (Permutation_in _ (order_by_date_desc_Permutation _)), Hr. }
    destruct (filter_id_split _ r Hnd Hin) as (before & after & Hsel & Hfilter & Hother).
    exists before, after.
    assert (Hsel' : select_order_by_date_desc db' = before ++ after).
    { unfold db', select_order_by_date_desc, delete_where_id; simpl.
      rewrite <- filter_order_by_date_desc. exact Hfilter. }
    repeat split; try assumption.
    + rewrite index_response, Hsel. now destruct (py_sum _).
    + rewrite index_response, Hsel'. now destruct (py_sum _).
  - intros trace e He Heq.
    assert (Hwf' : wf db') by now apply delete_where_id_wf.
    destruct (run_rows trace db' e Hwf' He) as [Hin|Hnew].
    + simpl in Hin. apply filter_In in Hin. destruct Hin as [_ Hne].
      apply negb_true_iff, Z.eqb_neq in Hne. contradiction.
    + simpl in Hnew. destruct Hwf as (_ & Hids & _).
      rewrite Forall_forall in Hids. specialize (Hids r Hr). lia.
Qed.

(** ** Creating *)

(** C7.  A create request that binds, on a store with room for one more
    rowid, is answered with the redirect; and whenever a create request is
    answered with a redirect, that is 303 to "/", and the store has gained
    exactly one row, at its end, under an id no row had before: the title,
    amount and category of the request, and as its date the text in the
    form YYYY-MM-DD of the day [now]. *)
Theorem create_persists_one_row_dated_today (now : datetime) (body : form)
    (db : database) :
  valid now -> wf db ->
  (forall t x c, bind_add_expense body = Some (t, x, c) ->
     sqlite_sequence db < max_int64 ->
     fst (handle now (POST_add body) db) = RedirectResponse "/" 303)
  /\ (forall url code,
        fst (handle now (POST_add body) db) = RedirectResponse url code ->
        url = "/"%string /\ code = 303
        /\ exists e,
             expenses (snd (handle now (POST_add body) db)) = expenses db ++ [e]
             /\ Forall (fun e0 => id e0 <> id e) (expenses db)
             /\ date e = strftime_Y_m_d now
             /\ is_Y_m_d_of (date e) now
             /\ exists t x c,
                  bind_add_expense body = Some (t, x, c)
                  /\ title e = t /\ amount e = bind_double x /\ category e = c).
Proof.
  intros Hnow Hwf. simpl. split.
  - intros t x c -> Hroom. now rewrite (add_expense_inserts _ _ _ _ _ Hwf Hroom).
  - intros url code.
    destruct (bind_add_expense body) as [[[t x] c]|]; [|discriminate].
    destruct (Z.eq_dec (sqlite_sequence db) max_int64) as [Hfull|Hroom].
    { rewrite (add_expense_full _ _ _ _ _ Hwf Hfull). discriminate. }
    assert (Hlt : sqlite_sequence db < max_int64)
      by (destruct Hwf as (_ & _ & ?); lia).
    rewrite (add_expense_inserts _ _ _ _ _ Hwf Hlt). simpl.
    intros [= <- <-]. split; [reflexivity|]. split; [reflexivity|].
    eexists. split; [reflexivity|]. simpl.
    split; [|split; [reflexivity|split; [now apply strftime_Y_m_d_form|]]].
    + destruct Hwf as (_ & Hids & _).
      eapply Forall_impl; [|exact Hids]. simpl. intros; lia.
    + now exists t, x, c.
Qed.

(** ** No row is ever rewritten *)

(** C8.  Along any requests, a stored row [r] is never replaced by another
    row of its id: whatever row has that id later is [r] itself, field for
    field; and as long as none of the requests is a delete of the id of
    [r], the row [r] is still stored. *)
Theorem stored_rows_never_change (db : database) (r : expense)
    (trace : list (datetime * request)) :
  wf db -> In r (expenses db) ->
  (forall r', In r' (expenses (run trace db)) -> id r' = id r -> r' = r)
  /\ ((forall now segment, In (now, GET_delete segment) trace ->
         int_of_str segment <> Some (id r)) ->
      In r (expenses (run trace db))).
Proof.
  intros Hwf Hr. split.
  - intros r' Hr' Hid.
    destruct (run_rows trace db r' Hwf Hr') as [Hin|Hnew].
    + exact (NoDup_ids_same _ _ _ (wf_NoDup_ids _ Hwf) Hr Hin Hid).
    + destruct Hwf as (_ & Hids & _). rewrite Forall_forall in Hids.
      specialize (Hids r Hr). lia.
  - clear Hwf. revert db Hr.
    induction trace as [|[now req] trace IH]; simpl; intros db Hr Hnodel.
    + exact Hr.
    + apply IH.
      * apply handle_keeps; [|exact Hr].
        intros segment ->. apply (Hnodel now). now left.
      * intros now' segment Hin. apply (Hnodel now'). now right.
Qed.

(** ** An empty title *)

(** Where an empty form value is read as a missing field, a create whose
    title is sent empty is refused before [add_expense] runs. *)
Lemma empty_title_refused_where_read_as_missing (now : datetime) (body : form)
    (db : database) :
  binds_empty_form_value = false ->
  form_get "title" body = Some EmptyString ->
  handle now (POST_add body) db = (RequestValidationError, db).
Proof.
  intros Hflag Hempty. simpl. unfold bind_add_expense, form_value.
  now rewrite Hempty, Hflag.
Qed.


End Handlers.

(** ** Newest first *)

(** C10.  For two rows whose dates are the texts that [strftime] gives for
    the days [a] and [b], the date of the first compares greater than the
    date of the second, as TEXT, exactly when [a] is the later day; so the
    order of the listing is the reverse order of the calendar. *)
Theorem date_text_order_is_calendar_order (a b : datetime) (ea eb : expense) :
  valid a -> valid b ->
  date ea = strftime_Y_m_d a -> date eb = strftime_Y_m_d b ->
  (String.compare (date ea) (date eb) = Gt <-> later a b)
  /\ (date_lt eb ea = true <-> later a b).
Proof.
  intros Ha Hb Hea Heb.
  assert (Hgt : String.compare (date ea) (date eb) = Gt <-> later a b).
  { rewrite Hea, Heb, (strftime_Y_m_d_compare a b Ha Hb). unfold later.
    destruct (Z.compare_spec (year a) (year b));
      destruct (Z.compare_spec (month a) (month b));
      destruct (Z.compare_spec (day a) (day b));
      (split; [intro; try discriminate; lia | intro; try reflexivity; lia]). }
  split; [exact Hgt|].
  rewrite <- Hgt. unfold date_lt.
  rewrite (String.compare_antisym (date ea) (date eb)).
  destruct (String.compare (date eb) (date ea)); simpl; split; congruence.
Qed.

(** * The properties at work *)

(** ** The scenarios of the specification *)

Lemma wf_bus_and_coffee : wf bus_and_coffee.
Proof.
  unfold wf. vm_compute.
  repeat split; repeat constructor; discriminate.
Qed.

Example scenario_1_one_row :
  let db := snd (@handle sample_coercion today (POST_add coffee) empty_database) in
  map title (select_order_by_date_desc db) = ["Coffee"%string]
  /\ total_of (fst (index db)) = Some 4.5%float.
Proof. vm_compute. split; reflexivity. Qed.

Example scenario_2_two_rows :
  @run sample_coercion [(today, POST_add bus); (today, POST_add coffee)] empty_database
  = bus_and_coffee
  /\ map id (select_order_by_date_desc bus_and_coffee) = [1; 2]
  /\ total_of (fst (index bus_and_coffee)) = Some 6.5%float.
Proof. vm_compute. repeat split; reflexivity. Qed.

Example scenario_3_delete_bus :
  let out := @handle sample_coercion today (GET_delete "1") bus_and_coffee in
  fst out = RedirectResponse "/" 303
  /\ map title (select_order_by_date_desc (snd out)) = ["Coffee"%string]
  /\ total_of (fst (index (snd out))) = Some 4.5%float.
Proof. vm_compute. repeat split; reflexivity. Qed.

Example scenario_4_delete_unknown_id :
  @handle sample_coercion today (GET_delete "9999") bus_and_coffee
  = (RedirectResponse "/" 303, bus_and_coffee).
Proof. vm_compute. reflexivity. Qed.

Example scenario_5_amount_abc :
  let out := @handle sample_coercion today
               (POST_add tea_abc) empty_database in
  status (fst out) = 422
  /\ index (snd out) = (TemplateResponse [] 0%float, empty_database).
Proof. vm_compute. split; reflexivity. Qed.

(** An id is not given out again after its row is deleted. *)
Example ids_after_a_delete :
  @ids_assigned sample_coercion
    [(today, POST_add bus); (today, POST_add coffee); (today, GET_delete "2");
     (today, POST_add coffee); (today, GET_root)]%string
    empty_database
  = [1; 2; 3].
Proof. vm_compute. reflexivity. Qed.

(** ** The theorems at sample requests *)

Lemma int64_9999 : min_int64 <= 9999 <= max_int64.
Proof. unfold min_int64, max_int64. lia. Qed.

Lemma int64_1 : min_int64 <= 1 <= max_int64.
Proof. unfold min_int64, max_int64. lia. Qed.

Lemma valid_today : valid today.
Proof. unfold valid, today; simpl. lia. Qed.

Lemma valid_yesterday : valid yesterday.
Proof. unfold valid, yesterday; simpl. lia. Qed.

Lemma bus_row_stored : In bus_row (expenses bus_and_coffee).
Proof. left. reflexivity. Qed.

(** C2 on the store of scenario 2: both rows are of one date and are
    listed in the order of their insertion, twice over. *)
Lemma listing_newest_first_insertion_order_on_ties_witness :
  filter (has_date "2026-11-03") (select_order_by_date_desc bus_and_coffee)
  = filter (has_date "2026-11-03") (expenses bus_and_coffee)
  /\ StronglySorted Z.lt
       (map id (filter (has_date "2026-11-03")
                  (select_order_by_date_desc bus_and_coffee)))
  /\ @handle sample_coercion yesterday GET_root
       (snd (@handle sample_coercion today GET_root bus_and_coffee))
     = @handle sample_coercion today GET_root bus_and_coffee.
Proof.
  destruct (@listing_newest_first_insertion_order_on_ties sample_coercion bus_and_coffee)
    as (_ & _ & Hstable & Hids & _ & Hagain).
  split; [apply Hstable|].
  split; [apply Hids, wf_bus_and_coffee|apply Hagain].
Defined.

(** C3 at a create whose amount is the text abc and at a delete of the id
    abc. *)
Lemma invalid_requests_change_nothing_witness :
  (client_error (fst (@handle sample_coercion today (POST_add tea_abc) bus_and_coffee))
   /\ snd (@handle sample_coercion today (POST_add tea_abc) bus_and_coffee)
      = bus_and_coffee)
  /\ (client_error (fst (@handle sample_coercion today (GET_delete "abc") bus_and_coffee))
      /\ snd (@handle sample_coercion today (GET_delete "abc") bus_and_coffee)
         = bus_and_coffee).
Proof.
  destruct (@invalid_requests_change_nothing sample_coercion today bus_and_coffee)
    as [Hadd Hdelete].
  split.
  - apply Hadd. right. right. right. exists "abc"%string. split; reflexivity.
  - apply Hdelete. reflexivity.
Defined.

(** C4 was stated for every id.  The id 2^63 is an integer that no row has,
    and deleting it is answered with an error (500), not with the
    redirect. *)
Lemma delete_of_an_id_beyond_int64_fails :
  Forall (fun e => id e <> 2 ^ 63) (expenses bus_and_coffee)
  /\ delete_expense (2 ^ 63) bus_and_coffee
     = (InternalServerError OverflowError, bus_and_coffee)
  /\ status (fst (delete_expense (2 ^ 63) bus_and_coffee)) = 500.
Proof.
  split; [|split; reflexivity].
  repeat constructor; simpl; discriminate.
Qed.

(** C4 as amended, at the id 9999 that no row has, and at the id 1 deleted
    twice. *)
Lemma delete_absent_id_changes_nothing_witness :
  delete_expense 9999 bus_and_coffee = (RedirectResponse "/" 303, bus_and_coffee)
  /\ (let db1 := snd (delete_expense 1 bus_and_coffee) in
      fst (delete_expense 1 bus_and_coffee) = RedirectResponse "/" 303
      /\ delete_expense 1 db1 = (RedirectResponse "/" 303, db1)).
Proof.
  split.
  - apply (proj1 (delete_absent_id_changes_nothing 9999 bus_and_coffee int64_9999)).
    repeat constructor; simpl; discriminate.
  - exact (proj2 (delete_absent_id_changes_nothing 1 bus_and_coffee int64_1)).
Defined.

(** C6 was stated with a total that goes down by exactly the amount of the
    deleted row.  With the rows 1, of amount 1e16, and 2, of amount 1, the
    total shown is 1e16.  After row 1 is deleted it is 1: it went down by
    1e16 - 1, and 1 is not what subtracting the amount from the old total
    gives.  After row 2 is deleted instead, the total is what it was. *)
Lemma total_does_not_go_down_by_the_amount :
  map (fun e => (id e, amount e)) (expenses large_and_small)
  = [(1, Some 1e16%float); (2, Some 1%float)]
  /\ total_of (fst (index large_and_small)) = Some 1e16%float
  /\ total_of (fst (index (snd (delete_expense 1 large_and_small)))) = Some 1%float
  /\ ~ decreased_by_exactly 1e16 1 1e16
  /\ 1%float <> (1e16 - 1e16)%float
  /\ total_of (fst (index (snd (delete_expense 2 large_and_small))))
     = total_of (fst (index large_and_small)).
Proof.
  repeat split; try (vm_compute; reflexivity).
  - vm_compute. discriminate.
  - intro H. apply (f_equal Prim2SF) in H. vm_compute in H. discriminate.
Qed.

(** The same with amounts of ten and twenty cents, [float("0.10")] and
    [float("0.20")]: the total of both is 0.30000000000000004, and after
    the first is deleted the total is not that minus the amount. *)
Example total_of_small_amounts :
  let dime := 0x1.999999999999ap-4%float in
  let two_dimes := 0x1.999999999999ap-3%float in
  let db := snd (add_expense "Gum" two_dimes "Food" today
                   (snd (add_expense "Mint" dime "Food" today empty_database))) in
  total_of (fst (index db)) = Some 0x1.3333333333334p-2%float
  /\ total_of (fst (index (snd (delete_expense 1 db)))) = Some two_dimes
  /\ two_dimes <> (0x1.3333333333334p-2 - dime)%float
  /\ ~ decreased_by_exactly 0x1.3333333333334p-2 two_dimes dime.
Proof.
  repeat split; try (vm_compute; reflexivity).
  - intro H. apply (f_equal Prim2SF) in H. vm_compute in H. discriminate.
  - vm_compute. discriminate.
Qed.

(** C6 as amended, at the Bus row of scenario 2. *)
Lemma delete_takes_the_row_out_and_sums_the_rest_witness :
  delete_expense (id bus_row) bus_and_coffee
  = (RedirectResponse "/" 303, delete_where_id (id bus_row) bus_and_coffee).
Proof.
  exact (proj1 (@delete_takes_the_row_out_and_sums_the_rest sample_coercion
                  bus_and_coffee bus_row wf_bus_and_coffee bus_row_stored)).
Defined.

(** C7 at the Coffee request of scenario 1. *)
Lemma create_persists_one_row_dated_today_witness :
  fst (@handle sample_coercion today (POST_add coffee) empty_database)
  = RedirectResponse "/" 303.
Proof.
  apply (proj1 (@create_persists_one_row_dated_today sample_coercion today coffee
                  empty_database valid_today wf_empty_database)
           "Coffee"%string 4.5%float "Food"%string).
  - reflexivity.
  - vm_compute. reflexivity.
Defined.

(** C8 at the Bus row of scenario 2, over a create, a delete of the other
    row and a listing. *)
Lemma stored_rows_never_change_witness :
  In bus_row
     (expenses (@run sample_coercion
                  [(today, POST_add coffee); (today, GET_delete "2"); (today, GET_root)]
                  bus_and_coffee)).
Proof.
  apply (proj2 (@stored_rows_never_change sample_coercion bus_and_coffee bus_row
                  [(today, POST_add coffee); (today, GET_delete "2"); (today, GET_root)]
                  wf_bus_and_coffee bus_row_stored)).
  intros now segment [H|[H|[H|[]]]]; inversion H; subst. vm_compute. discriminate.
Defined.


(** C10 at two rows dated today and yesterday. *)
Lemma date_text_order_is_calendar_order_witness :
  date_lt taxi_row bus_row = true.
Proof.
  apply (proj2 (date_text_order_is_calendar_order today yesterday bus_row taxi_row
                  valid_today valid_yesterday eq_refl eq_refl)).
  unfold later, today, yesterday; simpl. lia.
Defined.

(** * Further properties of the handlers *)

Section Further.

Context {coercion : Coercion}.

(** ** The store over time *)

(** X1.  After any sequence of requests from the empty store, the ids in
    the table are pairwise distinct and increase along the table, and every
    id lies between 1 and the sequence value, which is a 64-bit integer. *)
Theorem ids_distinct_and_bounded (trace : list (datetime * request)) :
  let db := run trace empty_database in
  NoDup (map id (expenses db))
  /\ StronglySorted Z.lt (map id (expenses db))
  /\ Forall (fun e => 1 <= id e <= sqlite_sequence db) (expenses db)
  /\ sqlite_sequence db <= max_int64.
Proof.
  intro db. pose proof (run_wf trace _ wf_empty_database) as Hwf.
  fold db in Hwf. split; [now apply wf_NoDup_ids|].
  destruct Hwf as (Hsorted & Hids & Hseq). repeat split; auto; lia.
Qed.

(** ** Which requests write *)

(** X4.  Only a request that is answered with the 303 redirect can have
    changed the store: after every other answer (the page, a validation
    error, a server error) the store is as it was. *)
Theorem only_redirects_write (now : datetime) (req : request) (db : database) :
  status (fst (handle now req db)) <> 303 -> snd (handle now req db) = db.
Proof.
  destruct req as [|body|segment]; simpl.
  - intros _. apply index_store.
  - destruct (bind_add_expense body) as [[[t x] c]|]; [|reflexivity].
    unfold add_expense. destruct (insert _ _ _ _ _) as [[? ?]|]; simpl;
      [congruence|reflexivity].
  - destruct (int_of_str segment) as [n|]; [|reflexivity].
    unfold delete_expense. destruct (bind_int64 n); simpl;
      [congruence|reflexivity].
Qed.

Lemma filter_id_length (l : list expense) (x : Z) :
  NoDup (map id l) ->
  le (List.length l) (S (List.length (filter (fun e => negb (id e =? x)) l))).
Proof.
  intro Hnd.
  destruct (existsb (fun e => id e =? x) l) eqn:Hex.
  - apply existsb_exists in Hex. destruct Hex as (r & Hr & Hid).
    apply Z.eqb_eq in Hid. subst x.
    destruct (filter_id_split l r Hnd Hr) as (before & after & -> & -> & _).
    rewrite !List.length_app. simpl. lia.
  - rewrite filter_all; [lia|].
    rewrite Forall_forall. intros e He.
    destruct (id e =? x) eqn:Hid; [|reflexivity].
    assert (existsb (fun e => id e =? x) l = true)
      by (apply existsb_exists; now exists e).
    congruence.
Qed.

(** X5.  A request changes the number of stored rows by at most one: a
    listing by none, a create adds one row at the end or none, a delete
    takes at most one row out and adds none. *)
Theorem one_row_at_a_time (now : datetime) (req : request) (db : database) :
  wf db ->
  let db' := snd (handle now req db) in
  le (List.length (expenses db)) (S (List.length (expenses db')))
  /\ le (List.length (expenses db')) (S (List.length (expenses db)))
  /\ (forall segment, req = GET_delete segment -> incl (expenses db') (expenses db))
  /\ (forall body, req = POST_add body ->
        expenses db' = expenses db \/ exists e, expenses db' = expenses db ++ [e]).
Proof.
  intros Hwf. cbv zeta.
  assert (Hsame : le (List.length (expenses db)) (S (List.length (expenses db)))) by lia.
  destruct req as [|body|segment]; simpl.
  - rewrite index_store.
    repeat split; auto; try discriminate; intros; apply incl_refl.
  - assert (Hadd : forall r : response * database,
              expenses (snd r) = expenses db
              \/ (exists e, expenses (snd r) = expenses db ++ [e]) ->
              le (List.length (expenses db)) (S (List.length (expenses (snd r))))
              /\ le (List.length (expenses (snd r))) (S (List.length (expenses db)))
              /\ (forall segment, POST_add body = GET_delete segment ->
                    incl (expenses (snd r)) (expenses db))
              /\ (forall body0, POST_add body = POST_add body0 ->
                    expenses (snd r) = expenses db
                    \/ exists e, expenses (snd r) = expenses db ++ [e])).
    { intros r Hr. repeat split; try discriminate; auto.
      - destruct Hr as [->|[e ->]]; [|rewrite List.length_app; simpl]; lia.
      - destruct Hr as [->|[e ->]]; [|rewrite List.length_app; simpl]; lia. }
    apply Hadd.
    destruct (bind_add_expense body) as [[[t x] c]|]; [|now left].
    destruct (Z.eq_dec (sqlite_sequence db) max_int64) as [Hfull|Hroom].
    + left. now rewrite (add_expense_full _ _ _ _ _ Hwf Hfull).
    + right. eexists. rewrite add_expense_inserts; [reflexivity|exact Hwf|].
      destruct Hwf as (_ & _ & ?); lia.
  - assert (Hdel : forall r : response * database,
              expenses (snd r) = expenses db
              \/ (exists x, expenses (snd r)
                            = filter (fun e => negb (id e =? x)) (expenses db)) ->
              le (List.length (expenses db)) (S (List.length (expenses (snd r))))
              /\ le (List.length (expenses (snd r))) (S (List.length (expenses db)))
              /\ (forall segment0, GET_delete segment = GET_delete segment0 ->
                    incl (expenses (snd r)) (expenses db))
              /\ (forall body, GET_delete segment = POST_add body ->
                    expenses (snd r) = expenses db
                    \/ exists e, expenses (snd r) = expenses db ++ [e])).
    { intros r Hr. repeat split; try discriminate.
      - destruct Hr as [->|[x ->]]; [lia|].
        apply filter_id_length. now apply wf_NoDup_ids.
      - destruct Hr as [->|[x ->]]; [lia|].
        pose proof (filter_length_le (fun e => negb (id e =? x)) (expenses db)). lia.
      - intros _ _. destruct Hr as [->|[x ->]]; [apply incl_refl|].
        intros e He. now apply filter_In in He. }
    apply Hdel.
    destruct (int_of_str segment) as [n|]; [|now left].
    unfold delete_expense. destruct (bind_int64 n) as [x|]; simpl; [|now left].
    right. now exists x.
Qed.

(** ** When the listing can fail *)

Lemma handle_keeps_amounts (now : datetime) (req : request) (db : database) :
  creates_nan req = false ->
  Forall (fun e => amount e <> None) (expenses db) ->
  Forall (fun e => amount e <> None) (expenses (snd (handle now req db))).
Proof.
  intros Hreq Hall. destruct req as [|body|segment]; simpl in *.
  - now rewrite index_store.
  - destruct (bind_add_expense body) as [[[t x] c]|]; [|exact Hall].
    unfold add_expense, insert. destruct (max_int64 <=? _); simpl; [exact Hall|].
    apply Forall_app. split; [exact Hall|].
    constructor; [|constructor]. simpl. unfold bind_double. rewrite Hreq.
    destruct (PrimFloat.eqb x 0); discriminate.
  - destruct (int_of_str segment) as [n|]; [|exact Hall].
    unfold delete_expense. destruct (bind_int64 n); simpl; [|exact Hall].
    rewrite Forall_forall in *. intros e He. apply filter_In in He. now apply Hall.
Qed.

(** X6.  GET / is answered with the page exactly on the stores without a
    NULL amount; and after any sequence of requests from the empty store
    none of which is a create with a NaN amount, no amount is NULL, so that
    GET / is answered with the page of the current rows and their total. *)
Theorem listing_answers_unless_a_nan_was_created (trace : list (datetime * request)) :
  (forall db,
     (exists total,
        index db = (TemplateResponse (select_order_by_date_desc db) total, db))
     <-> Forall (fun e => amount e <> None) (expenses db))
  /\ (Forall (fun step => creates_nan (snd step) = false) trace ->
      exists total,
        index (run trace empty_database)
        = (TemplateResponse (select_order_by_date_desc (run trace empty_database)) total,
           run trace empty_database)
        /\ py_sum (map amount (select_order_by_date_desc (run trace empty_database)))
           = Some total).
Proof.
  split.
  - intro db. split.
    + intros [total Hpage]. rewrite Forall_forall. intros e He Hnull.
      rewrite (index_fails_on_null db e He Hnull) in Hpage. discriminate.
    + intro Hall. destruct (index_total db Hall) as (total & Hpage & _).
      now exists total.
  - intro Hclean.
    assert (Hall : forall db, Forall (fun e => amount e <> None) (expenses db) ->
                   Forall (fun e => amount e <> None) (expenses (run trace db))).
    { induction Hclean as [|[now req] trace Hreq _ IH]; simpl; intros db Hdb;
        [exact Hdb|].
      apply IH. now apply handle_keeps_amounts. }
    destruct (index_total (run trace empty_database)) as (total & Hpage & Hsum & _).
    + apply Hall. constructor.
    + now exists total.
Qed.

(** ** Where a new row is listed *)

Lemma place_pass (a : expense) (l1 l2 : list expense) :
  Forall (fun x => date_lt a x = true) l1 ->
  place a (l1 ++ l2) = l1 ++ place a l2.
Proof.
  induction 1 as [|x l1 Hx _ IH]; simpl; [reflexivity|].
  now rewrite Hx, IH.
Qed.

Lemma place_stop (a : expense) (l1 l2 : list expense) :
  Exists (fun x => date_lt a x = false) l1 ->
  place a (l1 ++ l2) = place a l1 ++ l2.
Proof.
  induction l1 as [|x l1 IH]; intro Hex.
  - inversion Hex.
  - simpl. destruct (date_lt a x) eqn:Hax; [|reflexivity].
    inversion Hex as [? ? Hhead|? ? Htail]; subst; [congruence|].
    now rewrite (IH Htail).
Qed.

Lemma place_last (a : expense) (l : list expense) :
  Forall (fun x => date_lt a x = true) l -> place a l = l ++ [a].
Proof.
  intro H. rewrite <- (app_nil_r l) at 1. now rewrite place_pass.
Qed.

(** An earlier row [a] whose date is less than that of [e] is less than
    every row that [e] does not exceed. *)
Lemma date_lt_below (a e x : expense) :
  date_lt a e = true -> date_lt x e = false -> date_lt a x = true.
Proof.
  intros Hae Hxe. destruct (date_lt a x) eqn:Hax; [reflexivity|].
  rewrite (date_ge_trans a x e Hax Hxe) in Hae. discriminate.
Qed.

(** The listing of a table with one more row at its end: the new row
    comes after the rows of its own and of later dates, and before the rows
    of earlier dates. *)
Lemma order_by_date_desc_snoc (l : list expense) (e : expense) :
  order_by_date_desc (l ++ [e])
  = filter (fun r => negb (date_lt r e)) (order_by_date_desc l)
    ++ e :: filter (fun r => date_lt r e) (order_by_date_desc l).
Proof.
  induction l as [|a l IH]; simpl; [reflexivity|].
  rewrite IH.
  rewrite !filter_place by apply order_by_date_desc_descending.
  set (L := order_by_date_desc l).
  destruct (date_lt a e) eqn:Hae; simpl.
  - rewrite place_pass.
    + simpl. now rewrite Hae.
    + rewrite Forall_forall. intros x Hx. apply filter_In in Hx.
      destruct Hx as [_ Hx]. apply negb_true_iff in Hx.
      now apply (date_lt_below a e x).
  - destruct (Exists_dec (fun x => date_lt a x = false)
                (filter (fun r => negb (date_lt r e)) L)) as [Hex|Hnone].
    + intro x. destruct (date_lt a x); [right; discriminate|now left].
    + now rewrite place_stop.
    + assert (Hall : Forall (fun x => date_lt a x = true)
                       (filter (fun r => negb (date_lt r e)) L)).
      { rewrite Forall_forall. intros x Hx.
        destruct (date_lt a x) eqn:Hax; [reflexivity|].
        exfalso. apply Hnone. apply Exists_exists. now exists x. }
      rewrite place_pass by exact Hall. rewrite (place_last _ _ Hall).
      simpl. rewrite Hae. now rewrite <- app_assoc.
Qed.

(** X7.  A create puts its row, in the listing, after the rows of the same
    and of later dates and before the rows of earlier dates, and moves no
    other row; so a row created on a later day than every stored row heads
    the listing. *)
Theorem created_row_follows_its_day (t : string) (x : float) (c : string)
    (now : datetime) (db : database) :
  wf db -> sqlite_sequence db < max_int64 ->
  let e := created_row t x c now db in
  let db' := snd (add_expense t x c now db) in
  select_order_by_date_desc db'
  = filter (fun r => negb (date_lt r e)) (select_order_by_date_desc db)
    ++ e :: filter (fun r => date_lt r e) (select_order_by_date_desc db)
  /\ (Forall (fun r => date_lt r e = true) (expenses db) ->
      select_order_by_date_desc db' = e :: select_order_by_date_desc db).
Proof.
  intros Hwf Hroom e db'. subst db'.
  rewrite (add_expense_inserts _ _ _ _ _ Hwf Hroom).
  unfold select_order_by_date_desc. simpl. fold (created_row t x c now db). fold e.
  rewrite order_by_date_desc_snoc. split; [reflexivity|].
  intro Hold.
  assert (Hsel : Forall (fun r => date_lt r e = true) (order_by_date_desc (expenses db))).
  { rewrite Forall_forall in *. intros r Hr. apply Hold.
    apply (Permutation_in _ (Permutation_sym (order_by_date_desc_Permutation _))), Hr. }
  rewrite (filter_all (fun r => date_lt r e) _ Hsel).
  replace (filter (fun r => negb (date_lt r e)) (order_by_date_desc (expenses db)))
    with (@nil expense); [reflexivity|].
  symmetry. induction Hsel as [|r l Hr _ IH]; simpl; [reflexivity|].
  now rewrite Hr.
Qed.

End Further.

(** * Start-up: the folders *)

Section StartupProperties.

Variable TEMPLATE_HTML : string.

Lemma mkdir_exist_ok_spec (path : string) (fs fs' : filesystem) :
  mkdir_exist_ok path fs = Some fs' ->
  fs' path = Some Directory
  /\ (forall p, p <> path -> fs' p = fs p)
  /\ (forall p n, fs p = Some n -> fs' p = Some n).
Proof.
  unfold mkdir_exist_ok. destruct (fs path) as [[|text]|] eqn:Hpath.
  - intros [= <-]. auto.
  - discriminate.
  - intros [= <-]. unfold write. rewrite String.eqb_refl. split; [reflexivity|].
    split.
    + intros p Hp. apply String.eqb_neq in Hp. now rewrite Hp.
    + intros p n Hn. destruct (String.eqb_spec p path) as [->|_]; [congruence|exact Hn].
Qed.


(** X9.  Lines 88 to 98 raise (FileExistsError from [mkdir]) when
    templates or static exists as a regular file.  When they run through,
    both are directories and templates/index.html exists, and running them
    again on the result runs through and changes nothing. *)
Theorem ensure_folders_fails_on_a_file_and_repeats (fs : filesystem) :
  ((exists text, fs "templates"%string = Some (File text))
   \/ (exists text, fs "static"%string = Some (File text)) ->
   ensure_folders TEMPLATE_HTML fs = None)
  /\ (forall fs', ensure_folders TEMPLATE_HTML fs = Some fs' ->
        fs' "templates"%string = Some Directory
        /\ fs' "static"%string = Some Directory
        /\ fs' "templates/index.html"%string <> None
        /\ exists fs'', ensure_folders TEMPLATE_HTML fs' = Some fs''
                        /\ forall p, fs'' p = fs' p).
Proof.
  split.
  - unfold ensure_folders, mkdir_exist_ok.
    intros [[text Ht]|[text Hs]].
    + now rewrite Ht.
    + destruct (fs "templates"%string) as [[|text']|] eqn:Ht; [|reflexivity|].
      * destruct (fs "templates/index.html"%string); [now rewrite Hs|].
        unfold write at 1 2. simpl. now rewrite Hs.
      * unfold write at 1 2 3 4. simpl.
        destruct (fs "templates/index.html"%string); [now rewrite Hs|].
        unfold write. simpl. now rewrite Hs.
  - intros fs' Hok.
    assert (Hdirs : fs' "templates"%string = Some Directory
                    /\ fs' "static"%string = Some Directory
                    /\ fs' "templates/index.html"%string <> None).
    { revert Hok. unfold ensure_folders.
      destruct (mkdir_exist_ok "templates" fs) as [fs1|] eqn:H1; [|discriminate].
      apply mkdir_exist_ok_spec in H1. destruct H1 as (Hdir1 & _ & _).
      intro H2. apply mkdir_exist_ok_spec in H2.
      destruct H2 as (Hdir2 & Hframe2 & Hkeep2).
      split; [|split; [exact Hdir2|]].
      - apply Hkeep2. destruct (fs1 "templates/index.html"%string); [exact Hdir1|].
        unfold write. simpl. exact Hdir1.
      - rewrite Hframe2 by discriminate.
        destruct (fs1 "templates/index.html"%string) eqn:Hi; [congruence|].
        unfold write. now rewrite String.eqb_refl. }
    destruct Hdirs as (Ht & Hs & Hi). repeat split; try assumption.
    exists fs'. split; [|reflexivity].
    unfold ensure_folders, mkdir_exist_ok. rewrite Ht.
    destruct (fs' "templates/index.html"%string); [|congruence].
    now rewrite Hs.
Qed.

End StartupProperties.

(** * How the handlers compose *)

Lemma delete_where_id_comm (x y : Z) (db : database) :
  delete_where_id x (delete_where_id y db) = delete_where_id y (delete_where_id x db).
Proof.
  unfold delete_where_id; simpl. f_equal.
  induction (expenses db) as [|e l IH]; simpl; [reflexivity|].
  destruct (id e =? y) eqn:Hy, (id e =? x) eqn:Hx; simpl;
    rewrite ?Hx, ?Hy; simpl; now rewrite IH.
Qed.

Lemma filter_below_sequence (db : database) (e : expense) :
  wf db -> sqlite_sequence db < id e ->
  filter (fun r => negb (id r =? id e)) (expenses db) = expenses db.
Proof.
  intros (_ & Hids & _) Hnew. apply filter_all.
  eapply Forall_impl; [|exact Hids]. simpl. intros r Hr.
  apply negb_true_iff, Z.eqb_neq. lia.
Qed.

Lemma delete_expense_wf (x : Z) (db : database) :
  wf db -> wf (snd (delete_expense x db)).
Proof.
  intro Hwf. unfold delete_expense. destruct (bind_int64 x); simpl;
    [now apply delete_where_id_wf|exact Hwf].
Qed.

(** X10.  Two deletes give the same store in either order; and on a
    well-formed store a create and the delete of an id that the create does
    not assign give the same store in either order: the id that a create
    assigns does not depend on which rows are still there. *)
Theorem deletes_and_creates_commute (x y : Z) (t : string) (a : float) (c : string)
    (now : datetime) (db : database) :
  snd (delete_expense x (snd (delete_expense y db)))
  = snd (delete_expense y (snd (delete_expense x db)))
  /\ (wf db -> x <> sqlite_sequence db + 1 ->
      snd (delete_expense x (snd (add_expense t a c now db)))
      = snd (add_expense t a c now (snd (delete_expense x db)))).
Proof.
  split.
  - unfold delete_expense.
    destruct (bind_int64 x), (bind_int64 y); simpl; try reflexivity.
    apply delete_where_id_comm.
  - intros Hwf Hx.
    assert (Hwf' : wf (snd (delete_expense x db))) by now apply delete_expense_wf.
    assert (Hseq : sqlite_sequence (snd (delete_expense x db)) = sqlite_sequence db).
    { unfold delete_expense. now destruct (bind_int64 x). }
    destruct (Z.eq_dec (sqlite_sequence db) max_int64) as [Hfull|Hroom].
    + rewrite (add_expense_full _ _ _ _ _ Hwf Hfull).
      rewrite add_expense_full; [reflexivity|exact Hwf'|congruence].
    + assert (Hlt : sqlite_sequence db < max_int64)
        by (destruct Hwf as (_ & _ & ?); lia).
      rewrite (add_expense_inserts _ _ _ _ _ Hwf Hlt).
      rewrite add_expense_inserts; [|exact Hwf'|congruence].
      rewrite Hseq. unfold delete_expense.
      destruct (bind_int64 x) as [x'|] eqn:Hbind; simpl; [|reflexivity].
      assert (x' = x) as ->.
      { unfold bind_int64 in Hbind. destruct (_ && _); congruence. }
      unfold delete_where_id; simpl. f_equal.
      rewrite filter_app. simpl.
      destruct (Z.eqb_spec (sqlite_sequence db + 1) x) as [Heq|_]; [congruence|].
      reflexivity.
Qed.

(** X11.  A create followed by the delete of the id it assigned leaves the
    rows, and so the listing, as they were before; but the sequence value
    stays advanced, so the next create gets the id after it, not the same
    id again. *)
Theorem create_then_delete_restores_rows (t : string) (a : float) (c : string)
    (now : datetime) (db : database) :
  wf db -> sqlite_sequence db + 1 < max_int64 ->
  let created := snd (add_expense t a c now db) in
  let undone := snd (delete_expense (sqlite_sequence db + 1) created) in
  expenses undone = expenses db
  /\ select_order_by_date_desc undone = select_order_by_date_desc db
  /\ sqlite_sequence undone = sqlite_sequence db + 1
  /\ (forall t' a' c' now',
        fresh_ids undone (snd (add_expense t' a' c' now' undone))
        = [sqlite_sequence db + 2]).
Proof.
  intros Hwf Hroom created undone.
  assert (Hlt : sqlite_sequence db < max_int64) by lia.
  assert (Hcreated : created
                     = {| expenses := expenses db ++ [created_row t a c now db];
                          sqlite_sequence := sqlite_sequence db + 1 |}).
  { subst created. now rewrite (add_expense_inserts _ _ _ _ _ Hwf Hlt). }
  assert (Hwfc : wf created).
  { rewrite Hcreated.
    destruct (insert_wf t a c (strftime_Y_m_d now) db Hwf) as [[Hfull _]|(_ & _ & H)];
      [lia|exact H]. }
  assert (Hundone : undone
                    = {| expenses := expenses db;
                         sqlite_sequence := sqlite_sequence db + 1 |}).
  { subst undone. unfold delete_expense.
    rewrite bind_int64_Some.
    2:{ destruct Hwf as (_ & _ & ?). unfold min_int64, max_int64 in *. lia. }
    simpl. rewrite Hcreated. unfold delete_where_id; simpl. f_equal.
    rewrite filter_app. simpl. rewrite Z.eqb_refl. simpl. rewrite app_nil_r.
    apply (filter_below_sequence db (created_row t a c now db) Hwf). simpl. lia. }
  assert (Hwfu : wf undone) by (subst undone; now apply delete_expense_wf).
  split; [now rewrite Hundone|].
  split; [unfold select_order_by_date_desc; now rewrite Hundone|].
  split; [now rewrite Hundone|].
  intros t' a' c' now'.
  assert (Hsequ : sqlite_sequence undone = sqlite_sequence db + 1) by now rewrite Hundone.
  assert (Hrowsu : expenses undone = expenses db) by now rewrite Hundone.
  clearbody undone. clear Hundone.
  rewrite (add_expense_inserts _ _ _ _ _ Hwfu) by lia. cbn [snd].
  rewrite fresh_ids_inserted.
  - simpl. f_equal. lia.
  - simpl. rewrite Hrowsu, Hsequ. destruct Hwf as (_ & Hids & _).
    eapply Forall_impl; [|exact Hids]. simpl. intros; lia.
Qed.

(** * The links of the page *)

Lemma string_of_uint_no_slash (d : Decimal.uint) :
  has_slash (NilEmpty.string_of_uint d) = false.
Proof. induction d; simpl; auto. Qed.

Lemma str_of_int_positive (n : Z) :
  0 < n -> str_of_int n <> EmptyString /\ has_slash (str_of_int n) = false.
Proof.
  destruct n as [|p|p]; try lia. intros _.
  unfold str_of_int. simpl.
  pose proof (DecimalPos.Unsigned.to_uint_nonnil p) as Hp.
  unfold NilZero.string_of_uint.
  destruct (Pos.to_uint p) eqn:Hd; try congruence;
    (split; [discriminate|]); rewrite <- Hd;
    pose proof (string_of_uint_no_slash (Pos.to_uint p)) as H;
    rewrite Hd in *; exact H.
Qed.

Section Links.

Context {coercion : Coercion}.

(** X12.  When the int coercion reads decimal texts, the link that the page
    shows beside a stored row reaches [delete_expense] with the id of that
    row, and the request is answered with the redirect and takes out that
    one row, leaving all others in their places. *)
Theorem delete_link_deletes_its_row (now : datetime) (db : database) (e : expense) :
  reads_decimal -> wf db -> In e (expenses db) ->
  exists segment,
    route_GET (delete_href e) = Some (GET_delete segment)
    /\ handle now (GET_delete segment) db
       = (RedirectResponse "/" 303, delete_where_id (id e) db)
    /\ exists before after,
         expenses db = before ++ e :: after
         /\ expenses (delete_where_id (id e) db) = before ++ after.
Proof.
  intros Hreads Hwf He.
  assert (Hpos : 0 < id e).
  { destruct Hwf as (_ & Hids & _). rewrite Forall_forall in Hids.
    specialize (Hids e He). lia. }
  destruct (str_of_int_positive _ Hpos) as [Hnonempty Hslash].
  exists (str_of_int (id e)). split; [|split].
  - unfold route_GET, delete_href. cbn [String.append String.eqb strip_prefix].
    simpl. rewrite Hslash.
    destruct (String.eqb_spec (str_of_int (id e)) "") as [Heq|_]; [contradiction|].
    reflexivity.
  - simpl. rewrite (Hreads _ Hpos). unfold delete_expense.
    now rewrite (bind_int64_Some _ (wf_id_int64 _ _ Hwf He)).
  - destruct (filter_id_split _ e (wf_NoDup_ids _ Hwf) He)
      as (before & after & Hrows & Hfilter & _).
    now exists before, after.
Qed.

End Links.

(** * Totals of one and of two rows *)

Lemma SFadd_comm (prec emax : Z) (x y : spec_float) :
  SFadd prec emax x y = SFadd prec emax y x.
Proof.
  destruct x as [[|]|[|]| |sx mx ex], y as [[|]|[|]| |sy my ey]; try reflexivity.
  simpl. rewrite (Z.min_comm ey ex). f_equal. apply Z.add_comm.
Qed.

Lemma zero_plus (x : float) : Prim2SF x <> S754_zero true -> (0 + x)%float = x.
Proof.
  intro H. apply Prim2SF_inj. rewrite add_spec.
  change (Prim2SF 0) with (S754_zero false).
  unfold SF64add, SFadd.
  destruct (Prim2SF x) as [[|]| | |]; try reflexivity. congruence.
Qed.

Lemma sum_of_pair (a b : float) : (0 + a + b = 0 + b + a)%float.
Proof.
  apply Prim2SF_inj. rewrite !add_spec.
  change (Prim2SF 0) with (S754_zero false).
  destruct (Prim2SF a) as [[|]|[|]| |sa ma ea], (Prim2SF b) as [[|]|[|]| |sb mb eb];
    try reflexivity.
  exact (SFadd_comm prec emax (S754_finite sa ma ea) (S754_finite sb mb eb)).
Qed.

Lemma py_sum_short_Permutation (l l' : list (option float)) :
  Permutation l l' -> le (List.length l) 2 -> py_sum l = py_sum l'.
Proof.
  intros Hperm Hlen.
  destruct l as [|a [|b [|? ?]]]; simpl in Hlen; try lia.
  - apply Permutation_nil in Hperm. now subst.
  - apply Permutation_length_1_inv in Hperm. now subst.
  - apply Permutation_length_2_inv in Hperm. destruct Hperm as [->| ->];
      [reflexivity|].
    unfold py_sum. destruct a as [a|], b as [b|]; simpl; try reflexivity.
    f_equal. apply sum_of_pair.
Qed.

(** X13.  With one stored row the page shows that row and, as the total,
    its amount (a negative zero is shown as zero).  With at most two stored
    rows the total does not depend on which row is listed first: two stores
    with the same rows, whatever their order in the table and in the
    listing, show the same total. *)
Theorem total_of_one_or_two_rows :
  (forall db e x,
     expenses db = [e] -> amount e = Some x -> Prim2SF x <> S754_zero true ->
     index db = (TemplateResponse [e] x, db))
  /\ (forall db db',
        Permutation (expenses db) (expenses db') ->
        le (List.length (expenses db)) 2 ->
        total_of (fst (index db)) = total_of (fst (index db'))).
Proof.
  split.
  - intros db e x Hrows Hamount Hx. unfold index, select_order_by_date_desc.
    rewrite Hrows. simpl. rewrite Hamount. unfold py_sum. simpl.
    now rewrite (zero_plus x Hx).
  - intros db db' Hperm Hlen.
    assert (Htotal : forall d, total_of (fst (index d))
                               = py_sum (map amount (select_order_by_date_desc d))).
    { intro d. rewrite index_response. now destruct (py_sum _). }
    rewrite !Htotal. apply py_sum_short_Permutation.
    + apply Permutation_map. unfold select_order_by_date_desc.
      rewrite <- !order_by_date_desc_Permutation. exact Hperm.
    + rewrite length_map. unfold select_order_by_date_desc.
      now rewrite <- (Permutation_length (order_by_date_desc_Permutation (expenses db))).
Qed.

(** * The further properties at sample requests *)

Lemma decimal_coercion_reads_decimal : @reads_decimal decimal_coercion.
Proof.
  intros n Hn. simpl. unfold str_of_int.
  rewrite NilZero.isi.
  - simpl. now rewrite DecimalZ.of_to.
  - destruct n as [|p|p]; try lia. simpl. intros [= H].
    now apply (DecimalPos.Unsigned.to_uint_nonnil p).
  - destruct n as [|p|p]; try lia. discriminate.
Qed.

Lemma room_in_bus_and_coffee : sqlite_sequence bus_and_coffee < max_int64.
Proof. vm_compute. reflexivity. Qed.

(** X4 at a refused create. *)
Lemma only_redirects_write_witness :
  snd (@handle sample_coercion today (POST_add tea_abc) bus_and_coffee) = bus_and_coffee.
Proof.
  apply (@only_redirects_write sample_coercion today (POST_add tea_abc) bus_and_coffee).
  vm_compute. discriminate.
Defined.

(** X5 at the delete of the Bus row. *)
Lemma one_row_at_a_time_witness :
  le (List.length (expenses bus_and_coffee))
     (S (List.length
           (expenses (snd (@handle sample_coercion today (GET_delete "1") bus_and_coffee))))).
Proof.
  exact (proj1 (@one_row_at_a_time sample_coercion today (GET_delete "1") bus_and_coffee
                  wf_bus_and_coffee)).
Defined.

(** X6 after two creates and a delete, under a coercion that reads the
    text nan as a NaN. *)
Lemma listing_answers_unless_a_nan_was_created_witness :
  exists total,
    index (@run nan_reading_coercion
             [(today, POST_add bus); (today, POST_add coffee); (today, GET_delete "1")]
             empty_database)
    = (TemplateResponse
         (select_order_by_date_desc
            (@run nan_reading_coercion
               [(today, POST_add bus); (today, POST_add coffee); (today, GET_delete "1")]
               empty_database))
         total,
       @run nan_reading_coercion
         [(today, POST_add bus); (today, POST_add coffee); (today, GET_delete "1")]
         empty_database)
    /\ py_sum (map amount
                 (select_order_by_date_desc
                    (@run nan_reading_coercion
                       [(today, POST_add bus); (today, POST_add coffee);
                        (today, GET_delete "1")]
                       empty_database)))
       = Some total.
Proof.
  apply (proj2 (@listing_answers_unless_a_nan_was_created nan_reading_coercion
                  [(today, POST_add bus); (today, POST_add coffee);
                   (today, GET_delete "1")])).
  repeat constructor.
Defined.

(** X7 at a create made yesterday on the store of scenario 2: the row is
    listed after the two rows of today. *)
Lemma created_row_follows_its_day_witness :
  map title
    (select_order_by_date_desc
       (snd (add_expense "Taxi" 4.5%float "Transport" yesterday bus_and_coffee)))
  = ["Bus"; "Coffee"; "Taxi"]%string.
Proof.
  rewrite (proj1 (created_row_follows_its_day "Taxi" 4.5%float "Transport" yesterday
                    bus_and_coffee wf_bus_and_coffee room_in_bus_and_coffee)).
  vm_compute. reflexivity.
Defined.


(** X9 on an empty folder: the lines run through, and again. *)
Lemma ensure_folders_fails_on_a_file_and_repeats_witness :
  exists fs' fs'',
    ensure_folders "<html></html>" empty_directory = Some fs'
    /\ fs' "templates/index.html"%string <> None
    /\ ensure_folders "<html></html>" fs' = Some fs''
    /\ forall p, fs'' p = fs' p.
Proof.
  destruct (ensure_folders "<html></html>" empty_directory) as [fs'|] eqn:Hstart.
  - destruct (proj2 (ensure_folders_fails_on_a_file_and_repeats "<html></html>"
                       empty_directory)
                fs' Hstart) as (_ & _ & Hindex & fs'' & Hagain & Hsame).
    now exists fs', fs''.
  - discriminate.
Defined.

(** X10 at the rows of scenario 2. *)
Lemma deletes_and_creates_commute_witness :
  snd (delete_expense 1 (snd (add_expense "Taxi" 4.5%float "Transport" today bus_and_coffee)))
  = snd (add_expense "Taxi" 4.5%float "Transport" today (snd (delete_expense 1 bus_and_coffee))).
Proof.
  apply (proj2 (deletes_and_creates_commute 1 2 "Taxi" 4.5%float "Transport" today
                  bus_and_coffee) wf_bus_and_coffee).
  vm_compute. discriminate.
Defined.

(** X11 at a create on the store of scenario 2, undone. *)
Lemma create_then_delete_restores_rows_witness :
  expenses (snd (delete_expense (sqlite_sequence bus_and_coffee + 1)
                   (snd (add_expense "Taxi" 4.5%float "Transport" today bus_and_coffee))))
  = expenses bus_and_coffee.
Proof.
  apply (create_then_delete_restores_rows "Taxi" 4.5%float "Transport" today
           bus_and_coffee wf_bus_and_coffee).
  vm_compute. reflexivity.
Defined.

(** X12 at the link beside the Bus row. *)
Lemma delete_link_deletes_its_row_witness :
  exists segment,
    route_GET (delete_href bus_row) = Some (GET_delete segment)
    /\ @handle decimal_coercion today (GET_delete segment) bus_and_coffee
       = (RedirectResponse "/" 303, delete_where_id (id bus_row) bus_and_coffee)
    /\ exists before after,
         expenses bus_and_coffee = before ++ bus_row :: after
         /\ expenses (delete_where_id (id bus_row) bus_and_coffee) = before ++ after.
Proof.
  exact (@delete_link_deletes_its_row decimal_coercion today bus_and_coffee bus_row
           decimal_coercion_reads_decimal wf_bus_and_coffee bus_row_stored).
Defined.

(** X13 at the store of scenario 1. *)
Lemma total_of_one_or_two_rows_witness :
  index only_coffee = (TemplateResponse [coffee_row] 4.5%float, only_coffee).
Proof.
  apply (proj1 total_of_one_or_two_rows only_coffee coffee_row 4.5%float
           eq_refl eq_refl).
  vm_compute. discriminate.
Defined.

(** * The listing by the calendar *)

Lemma later_compare (a b : datetime) :
  valid a -> valid b ->
  later a b -> String.compare (strftime_Y_m_d a) (strftime_Y_m_d b) = Gt.
Proof.
  intros Ha Hb. rewrite (strftime_Y_m_d_compare a b Ha Hb). unfold later.
  destruct (Z.compare_spec (year a) (year b));
    destruct (Z.compare_spec (month a) (month b));
    destruct (Z.compare_spec (day a) (day b)); intro; try reflexivity; lia.
Qed.

Lemma date_descending_not_older (l : list expense) :
  date_descending l -> StronglySorted not_older l.
Proof.
  unfold date_descending. induction 1 as [|a l _ IH Hall]; constructor; [exact IH|].
  eapply Forall_impl; [|exact Hall]. simpl.
  intros b Hab da db Hda Hdb Hdate_a Hdate_b Hlater.
  pose proof (later_compare db da Hdb Hda Hlater) as Hgt.
  unfold date_lt in Hab. rewrite Hdate_a, Hdate_b in Hab.
  rewrite String.compare_antisym, Hgt in Hab. discriminate.
Qed.

Section Calendar.

Context {coercion : Coercion}.

Lemma handle_keeps_dated (now : datetime) (req : request) (db : database) :
  valid now -> Forall dated (expenses db) ->
  Forall dated (expenses (snd (handle now req db))).
Proof.
  intros Hnow Hall. destruct req as [|body|segment]; simpl.
  - now rewrite index_store.
  - destruct (bind_add_expense body) as [[[t x] c]|]; [|exact Hall].
    unfold add_expense, insert. destruct (max_int64 <=? _); simpl; [exact Hall|].
    apply Forall_app. split; [exact Hall|].
    constructor; [|constructor]. now exists now.
  - destruct (int_of_str segment) as [n|]; [|exact Hall].
    unfold delete_expense. destruct (bind_int64 n); simpl; [|exact Hall].
    rewrite Forall_forall in *. intros e He. apply filter_In in He. now apply Hall.
Qed.

(** X15.  After any requests from the empty store, each answered at a valid
    time, every listed date is the text of a valid day, and the listing is
    newest day first by the calendar: no row is listed before a row of a
    later day. *)
Theorem listing_is_newest_day_first (trace : list (datetime * request)) :
  Forall (fun step => valid (fst step)) trace ->
  Forall dated (select_order_by_date_desc (run trace empty_database))
  /\ StronglySorted not_older (select_order_by_date_desc (run trace empty_database)).
Proof.
  intro Hvalid. split.
  - assert (Hall : forall db, Forall dated (expenses db) ->
                   Forall dated (expenses (run trace db))).
    { induction Hvalid as [|[now req] trace Hnow _ IH]; simpl; intros db Hdb;
        [exact Hdb|].
      apply IH. now apply handle_keeps_dated. }
    specialize (Hall empty_database (Forall_nil _)).
    rewrite Forall_forall in *. intros e He. apply Hall.
    apply (Permutation_in _ (Permutation_sym (order_by_date_desc_Permutation _))), He.
  - apply date_descending_not_older, order_by_date_desc_descending.
Qed.

End Calendar.

(** X15 after creates of today and of yesterday. *)
Lemma listing_is_newest_day_first_witness :
  StronglySorted not_older
    (select_order_by_date_desc
       (@run sample_coercion
          [(yesterday, POST_add bus); (today, POST_add coffee)] empty_database)).
Proof.
  apply (@listing_is_newest_day_first sample_coercion
           [(yesterday, POST_add bus); (today, POST_add coffee)]).
  repeat constructor; simpl; lia.
Defined.
